(** * Membership-renewal notifications of the gym application

    A shallow embedding of [src/services/notificationService.ts]: the
    renewal classifier ([sendMembershipRenewalNotification]), the three
    record-creating helpers, [calculateDaysUntilExpiry] and the sweep
    [checkAllMembersForRenewal], together with the properties the
    specification states about them.

    Conventions.
    - A JavaScript [Date] is its time value: an integral number of
      milliseconds since the epoch, or no value for an Invalid Date.
    - A JavaScript number that can be NaN is an [option]; the division in
      [calculateDaysUntilExpiry] is carried out over the rationals, so the
      rounding of IEEE doubles is not part of the model.  (For dates less
      than 2^53 milliseconds apart the difference is exact and the quotient
      is below 2^27; a quotient that is not integral lies at least
      1/86400000 away from the integers, more than half a unit in the last
      place there, so the rounded quotient has the exact ceiling.)
    - Asynchronous methods run sequentially ([await] on every call), so a
      method is a function from the world before to a completion and the
      world after.  The world records what the collaborators (document
      store, alert scheduler, console) were asked to do, in order; what they
      answer is given by an environment, indexed by the number of
      interactions so far. *)

From Stdlib Require Import ZArith QArith Qround List String Ascii Bool Lia.
From Stdlib Require Import DecimalString.
Import ListNotations.

Local Open Scope string_scope.
Local Open Scope list_scope.
Local Open Scope Z_scope.

(** ** Domain types *)

(** Modelled from the spec: [src/types] is not part of the sources at hand;
    the fields are those of the data model (Member: identity, end date,
    status in active/inactive/expired, fee) and those the service reads. *)
Inductive MembershipStatus : Type :=
| active
| inactive
| expired.

Definition MembershipStatus_eqb (a b : MembershipStatus) : bool :=
  match a, b with
  | active, active | inactive, inactive | expired, expired => true
  | _, _ => false
  end.

(** Time value of a [Date]; [None] is the Invalid Date. *)
Definition Date : Type := option Z.

(** Modelled from the spec: the [Member] of [src/types], with the fields
    the service reads. *)
Module Member.
Record t : Type := mk {
  id : string;
  membershipEndDate : Date;
  membershipStatus : MembershipStatus;
  membershipFee : Z
}.
End Member.

(** Modelled from the spec: the payload of a renewal notification
    (member id, end date, days until expiry, fee), as the helpers fill it. *)
Module NotificationData.
Record t : Type := mk {
  memberId : string;
  membershipEndDate : string;
  daysUntilExpiry : Z;
  membershipFee : Z
}.
End NotificationData.

(** Modelled from the spec: [Omit<Notification, 'id'>] of [src/types], with
    the payload the three helpers store. *)
Module Notification.
Record t : Type := mk {
  userId : string;
  title : string;
  message : string;
  type : string;
  isRead : bool;
  createdAt : string;
  data : NotificationData.t
}.
End Notification.

(** ** Collaborators *)

(** A thrown JavaScript value: the error's name and message. *)
Inductive Error : Type :=
| Err (name : string) (message : string).

(** How a call completes. *)
Inductive Completion (A : Type) : Type :=
| Returns (a : A)
| Throws (e : Error).
Arguments Returns {A} a.
Arguments Throws {A} e.

(** The request handed to [Notifications.scheduleNotificationAsync]. *)
Inductive Trigger : Type :=
| Seconds (seconds : Z).

Inductive AndroidNotificationPriority : Type :=
| HIGH.

Record NotificationContent : Type := mkContent {
  content_title : string;
  content_body : string;
  content_sound : string;
  content_priority : AndroidNotificationPriority;
  content_data_type : string
}.

Record NotificationRequest : Type := mkRequest {
  content : NotificationContent;
  trigger : option Trigger
}.

Inductive ConsoleLevel : Type :=
| LevelLog
| LevelError.

Inductive ConsoleArg : Type :=
| ArgString (s : string)
| ArgError (e : Error).

(** What the service did to the outside, oldest first. *)
Inductive Event : Type :=
| CreateNotification (n : Notification.t) (r : Completion string)
| ScheduleNotification (req : NotificationRequest) (r : Completion string)
| GetAllMembers (r : Completion (list Member.t))
| Console (level : ConsoleLevel) (text : string) (arg : ConsoleArg).

(** The answers of the outside.  The index is the number of interactions
    that took place before the call. *)
Record Env : Type := mkEnv {
  clock : nat -> Z;
  toISOString : Z -> string;
  toLocaleDateString : Z -> string;
  createNotification_answer : nat -> Notification.t -> Completion string;
  scheduleNotificationAsync_answer : nat -> NotificationRequest -> Completion string;
  getAllMembers_answer : nat -> Completion (list Member.t)
}.

Record World : Type := mkWorld {
  ticks : nat;
  trace : list Event
}.

(** ** Sequential code that may throw *)

Definition M (A : Type) : Type := World -> Completion A * World.

Definition ret {A : Type} (a : A) : M A := fun w => (Returns a, w).

Definition throw {A : Type} (e : Error) : M A := fun w => (Throws e, w).

Definition bind {A B : Type} (m : M A) (k : A -> M B) : M B :=
  fun w =>
    match m w with
    | (Returns a, w') => k a w'
    | (Throws e, w') => (Throws e, w')
    end.

Definition try_catch {A : Type} (body : M A) (handler : Error -> M A) : M A :=
  fun w =>
    match body w with
    | (Returns a, w') => (Returns a, w')
    | (Throws e, w') => handler e w'
    end.

Declare Scope js_scope.
Delimit Scope js_scope with js.
Notation "x <- c1 ;; c2" := (bind c1 (fun x => c2))
  (at level 61, c1 at next level, right associativity) : js_scope.
Notation "c1 ;; c2" := (bind c1 (fun _ => c2))
  (at level 61, right associativity) : js_scope.
Local Open Scope js_scope.

(** [for (const x of xs) { await body(x) }]: a throw leaves the loop. *)
Fixpoint for_of {A : Type} (xs : list A) (body : A -> M unit) : M unit :=
  match xs with
  | [] => ret tt
  | x :: rest => body x ;; for_of rest body
  end.

Definition result {A : Type} (m : M A) (w : World) : Completion A := fst (m w).
Definition exec {A : Type} (m : M A) (w : World) : World := snd (m w).

Definition tick (w : World) : World :=
  {| ticks := S (ticks w); trace := trace w |}.

Definition emit (e : Event) (w : World) : World :=
  {| ticks := S (ticks w); trace := trace w ++ [e] |}.

(** Template-literal rendering of an integral number. *)
Definition string_of_Z (z : Z) : string :=
  NilZero.string_of_int (Z.to_int z).

Definition MS_PER_DAY : Z := 1000 * 3600 * 24.

(** [Math.ceil(timeDiff / (1000 * 3600 * 24))]. *)
Definition Math_ceil_div (timeDiff : Z) (divisor : Z) : Z :=
  Qceiling (inject_Z timeDiff / inject_Z divisor)%Q.

Section Service.

Variable env : Env.

(** [new Date()], as a time value. *)
Definition newDate : M Z :=
  fun w => (Returns (clock env (ticks w)), tick w).

Definition Date_getTime (d : Date) : option Z := d.

Definition Date_toISOString (d : Date) : M string :=
  match d with
  | Some t => ret (toISOString env t)
  | None => throw (Err "RangeError" "Invalid time value")
  end.

Definition Date_toLocaleDateString (d : Date) : string :=
  match d with
  | Some t => toLocaleDateString env t
  | None => "Invalid Date"
  end.

Definition console_log (text : string) (arg : ConsoleArg) : M unit :=
  fun w => (Returns tt, emit (Console LevelLog text arg) w).

Definition console_error (text : string) (arg : ConsoleArg) : M unit :=
  fun w => (Returns tt, emit (Console LevelError text arg) w).

(** [firebaseService.createNotification]. *)
Definition firebaseService_createNotification (n : Notification.t) : M string :=
  fun w =>
    let r := createNotification_answer env (ticks w) n in
    (r, emit (CreateNotification n r) w).

(** [firebaseService.getAllMembers]. *)
Definition firebaseService_getAllMembers : M (list Member.t) :=
  fun w =>
    let r := getAllMembers_answer env (ticks w) in
    (r, emit (GetAllMembers r) w).

(** [Notifications.scheduleNotificationAsync]. *)
Definition Notifications_scheduleNotificationAsync (req : NotificationRequest) : M string :=
  fun w =>
    let r := scheduleNotificationAsync_answer env (ticks w) req in
    (r, emit (ScheduleNotification req r) w).

(** ** The service *)

Definition scheduleLocalNotification (title body : string) (trigger : option Trigger) : M string :=
  try_catch
    (identifier <- Notifications_scheduleNotificationAsync
       {| content := {| content_title := title;
                        content_body := body;
                        content_sound := "default";
                        content_priority := HIGH;
                        content_data_type := "local_notification" |};
          trigger := trigger |} ;;
     console_log "Local notification scheduled:" (ArgString identifier) ;;
     ret identifier)
    (fun error =>
       console_error "Error scheduling local notification:" (ArgError error) ;;
       throw error).

Definition calculateDaysUntilExpiry (membershipEndDate : Date) : M (option Z) :=
  today <- newDate ;;
  let endDate := membershipEndDate in
  let timeDiff := option_map (fun t => t - today) (Date_getTime endDate) in
  let daysDiff := option_map (fun d => Math_ceil_div d MS_PER_DAY) timeDiff in
  ret daysDiff.

Definition urgentMessage (daysUntilExpiry : Z) : string :=
  ("Your membership expires in " ++ string_of_Z daysUntilExpiry ++ " day"
   ++ (if (daysUntilExpiry =? 1)%Z then "" else "s")
   ++ ". Renew now to avoid interruption in your fitness journey!")%string.

Definition urgentTitle : string := "⚠️ Urgent: Membership Expiring Soon!".
Definition reminderTitle : string := "📅 Membership Renewal Reminder".
Definition expiredTitle : string := "❌ Membership Expired".

Definition createUrgentRenewalNotification (member : Member.t) (daysUntilExpiry : Z) : M unit :=
  now <- newDate ;;
  endISO <- Date_toISOString (Member.membershipEndDate member) ;;
  let notification :=
    {| Notification.userId := Member.id member;
       Notification.title := urgentTitle;
       Notification.message := urgentMessage daysUntilExpiry;
       Notification.type := "membership_renewal";
       Notification.isRead := false;
       Notification.createdAt := toISOString env now;
       Notification.data :=
         {| NotificationData.memberId := Member.id member;
            NotificationData.membershipEndDate := endISO;
            NotificationData.daysUntilExpiry := daysUntilExpiry;
            NotificationData.membershipFee := Member.membershipFee member |} |} in
  _ <- firebaseService_createNotification notification ;;
  try_catch
    (_ <- scheduleLocalNotification
            (Notification.title notification)
            (Notification.message notification)
            (Some (Seconds 2)) ;;
     ret tt)
    (fun error =>
       console_log "Local notification failed (expected in some cases):"
         (ArgError error)).

Definition createRenewalReminderNotification (member : Member.t) (daysUntilExpiry : Z) : M unit :=
  let message :=
    ("Your membership will expire on "
     ++ Date_toLocaleDateString (Member.membershipEndDate member)
     ++ ". Consider renewing to continue your fitness journey!")%string in
  now <- newDate ;;
  endISO <- Date_toISOString (Member.membershipEndDate member) ;;
  let notification :=
    {| Notification.userId := Member.id member;
       Notification.title := reminderTitle;
       Notification.message := message;
       Notification.type := "membership_renewal";
       Notification.isRead := false;
       Notification.createdAt := toISOString env now;
       Notification.data :=
         {| NotificationData.memberId := Member.id member;
            NotificationData.membershipEndDate := endISO;
            NotificationData.daysUntilExpiry := daysUntilExpiry;
            NotificationData.membershipFee := Member.membershipFee member |} |} in
  _ <- firebaseService_createNotification notification ;;
  ret tt.

Definition createExpiredMembershipNotification (member : Member.t) : M unit :=
  now <- newDate ;;
  endISO <- Date_toISOString (Member.membershipEndDate member) ;;
  let notification :=
    {| Notification.userId := Member.id member;
       Notification.title := expiredTitle;
       Notification.message :=
         "Your membership has expired. Please renew to continue accessing gym facilities and services.";
       Notification.type := "membership_renewal";
       Notification.isRead := false;
       Notification.createdAt := toISOString env now;
       Notification.data :=
         {| NotificationData.memberId := Member.id member;
            NotificationData.membershipEndDate := endISO;
            NotificationData.daysUntilExpiry := 0;
            NotificationData.membershipFee := Member.membershipFee member |} |} in
  _ <- firebaseService_createNotification notification ;;
  try_catch
    (_ <- scheduleLocalNotification
            (Notification.title notification)
            (Notification.message notification)
            (Some (Seconds 2)) ;;
     ret tt)
    (fun error =>
       console_log "Local notification failed (expected in some cases):"
         (ArgError error)).

Definition sendMembershipRenewalNotification (member : Member.t) : M unit :=
  try_catch
    (daysUntilExpiry <- calculateDaysUntilExpiry (Member.membershipEndDate member) ;;
     match daysUntilExpiry with
     | None => ret tt
     | Some d =>
         if d <=? 0 then createExpiredMembershipNotification member
         else if d <=? 7 then createUrgentRenewalNotification member d
         else if d <=? 30 then createRenewalReminderNotification member d
         else ret tt
     end)
    (fun error =>
       console_error "Error sending membership renewal notification:" (ArgError error)).

(** The body of the loop of [checkAllMembersForRenewal]. *)
Definition checkMember (member : Member.t) : M unit :=
  if MembershipStatus_eqb (Member.membershipStatus member) active
  then sendMembershipRenewalNotification member
  else ret tt.

Definition checkAllMembersForRenewal : M unit :=
  try_catch
    (members <- firebaseService_getAllMembers ;;
     for_of members checkMember)
    (fun error =>
       console_error "Error checking members for renewal:" (ArgError error)).

(** The value [sendMembershipRenewalNotification] classifies [member] by
    when it starts in world [w]. *)
Definition daysLeft (w : World) (member : Member.t) : option Z :=
  match result (calculateDaysUntilExpiry (Member.membershipEndDate member)) w with
  | Returns d => d
  | Throws _ => None
  end.

End Service.

Arguments Math_ceil_div : simpl never.

(** ** Observations on a run *)

(** The events a run added, given the world before and the world after. *)
Definition produced (w w' : World) : list Event :=
  skipn (List.length (trace w)) (trace w').

(** The records handed to the document store, written or not. *)
Definition writes (evs : list Event) : list Notification.t :=
  flat_map (fun ev => match ev with CreateNotification n _ => [n] | _ => [] end) evs.

(** The records the document store accepted. *)
Definition records (evs : list Event) : list Notification.t :=
  flat_map (fun ev => match ev with CreateNotification n (Returns _) => [n] | _ => [] end) evs.


(** The requests handed to the alert scheduler. *)
Definition alerts (evs : list Event) : list NotificationRequest :=
  flat_map (fun ev => match ev with ScheduleNotification req _ => [req] | _ => [] end) evs.

Definition storedDays (n : Notification.t) : Z :=
  NotificationData.daysUntilExpiry (Notification.data n).

(** The test of the sweep: [member.membershipStatus === 'active']. *)
Definition isActive (m : Member.t) : bool :=
  MembershipStatus_eqb (Member.membershipStatus m) active.


(** The document store accepts every record addressed to [member]. *)
Definition accepts (env : Env) (member : Member.t) : Prop :=
  forall k n, Notification.userId n = Member.id member ->
    exists docId, createNotification_answer env k n = Returns docId.

(** ** A concrete gym

    One environment to run the service on: the clock starts on
    2026-01-01T00:00:00Z and advances one millisecond per interaction, the
    document store refuses the records of member ["A"], and the device has
    no alert scheduler. *)
Module Gym.

Definition T0 : Z := 1767225600000.

Definition dueIn (name : string) (ms : Z) (status : MembershipStatus) : Member.t :=
  {| Member.id := name;
     Member.membershipEndDate := Some (T0 + ms);
     Member.membershipStatus := status;
     Member.membershipFee := 4500 |}.

Definition alice : Member.t := dueIn "A" (5 * MS_PER_DAY) active.
Definition bob : Member.t := dueIn "B" (- 5 * MS_PER_DAY) active.
Definition carol : Member.t := dueIn "C" (20 * MS_PER_DAY) inactive.
Definition dave : Member.t := dueIn "D" (20 * MS_PER_DAY) active.
Definition erin : Member.t := dueIn "E" (90 * MS_PER_DAY) active.
Definition frank : Member.t := dueIn "F" (3 * MS_PER_DAY) active.

Definition today : Member.t := dueIn "d0" 0 active.
Definition week : Member.t := dueIn "d7" (7 * MS_PER_DAY) active.
Definition month : Member.t := dueIn "d30" (30 * MS_PER_DAY) active.
Definition monthAndMore : Member.t := dueIn "d31" (30 * MS_PER_DAY + 1) active.

Definition env : Env :=
  {| clock := fun k => T0 + Z.of_nat k;
     toISOString := fun t => string_of_Z t;
     toLocaleDateString := fun t => string_of_Z (t / MS_PER_DAY);
     createNotification_answer := fun _ n =>
       if String.eqb (Notification.userId n) "A"
       then Throws (Err "FirebaseError" "unavailable")
       else Returns "doc";
     scheduleNotificationAsync_answer := fun _ _ =>
       Throws (Err "Error" "no scheduler");
     getAllMembers_answer := fun _ =>
       Returns [alice; bob; carol; dave; erin] |}.

Definition start : World := {| ticks := 0; trace := [] |}.

End Gym.

(** ** Permissions, push token and the daily check

    The remaining methods of the service work on the two fields of the
    service object ([expoPushToken], [isExpoGo]) and on the notification
    subsystem of the platform.  A machine holds the fields together with
    the record of what the platform was asked; what the platform answers is
    given by a [Platform], indexed as before. *)

Inductive PermissionStatus : Type :=
| status_granted
| status_denied
| status_undetermined.

Definition PermissionStatus_eqb (a b : PermissionStatus) : bool :=
  match a, b with
  | status_granted, status_granted
  | status_denied, status_denied
  | status_undetermined, status_undetermined => true
  | _, _ => false
  end.

Inductive PermissionExpiration : Type :=
| never
| expiresAt (t : Z).

(** [Notifications.NotificationPermissionsStatus], with the fields the
    service names. *)
Record NotificationPermissionsStatus : Type := mkPermissions {
  status : PermissionStatus;
  granted : bool;
  expires : PermissionExpiration
}.

Record DailyTrigger : Type := mkDailyTrigger {
  hour : Z;
  minute : Z;
  repeats : bool
}.

(** The request of [scheduleDailyRenewalCheck]. *)
Record CheckRequest : Type := mkCheckRequest {
  check_title : string;
  check_body : string;
  check_data_type : string;
  check_trigger : DailyTrigger
}.

Inductive Action : Type :=
| GetPermissions (r : Completion NotificationPermissionsStatus)
| RequestPermissions (r : Completion NotificationPermissionsStatus)
| GetExpoPushToken (r : Completion string)
| ScheduleCheck (req : CheckRequest) (r : Completion string)
| CancelAllScheduled (r : Completion unit)
| Log (level : ConsoleLevel) (text : string) (arg : option ConsoleArg).

Record Platform : Type := mkPlatform {
  isDevice : bool;
  appOwnership : Completion (option string);
  getPermissionsAsync_answer : nat -> Completion NotificationPermissionsStatus;
  requestPermissionsAsync_answer : nat -> Completion NotificationPermissionsStatus;
  getExpoPushTokenAsync_answer : nat -> Completion string;
  scheduleCheck_answer : nat -> CheckRequest -> Completion string;
  cancelAll_answer : nat -> Completion unit
}.

Record Machine : Type := mkMachine {
  expoPushToken : option string;
  isExpoGo : bool;
  steps : nat;
  actions : list Action
}.

(** The service object as constructed: no token, not Expo Go. *)
Definition fresh : Machine :=
  {| expoPushToken := None; isExpoGo := false; steps := 0; actions := [] |}.

Definition D (A : Type) : Type := Machine -> Completion A * Machine.

Definition dret {A : Type} (a : A) : D A := fun m => (Returns a, m).

Definition dthrow {A : Type} (e : Error) : D A := fun m => (Throws e, m).

Definition dbind {A B : Type} (c : D A) (k : A -> D B) : D B :=
  fun m =>
    match c m with
    | (Returns a, m') => k a m'
    | (Throws e, m') => (Throws e, m')
    end.

Definition dtry {A : Type} (body : D A) (handler : Error -> D A) : D A :=
  fun m =>
    match body m with
    | (Returns a, m') => (Returns a, m')
    | (Throws e, m') => handler e m'
    end.

Declare Scope device_scope.
Delimit Scope device_scope with device.
Notation "x <~ c1 ;; c2" := (dbind c1 (fun x => c2))
  (at level 61, c1 at next level, right associativity) : device_scope.
Notation "c1 ;;; c2" := (dbind c1 (fun _ => c2))
  (at level 61, right associativity) : device_scope.

Definition outcome {A : Type} (c : D A) (m : Machine) : Completion A := fst (c m).
Definition after {A : Type} (c : D A) (m : Machine) : Machine := snd (c m).

Definition act (a : Action) (m : Machine) : Machine :=
  {| expoPushToken := expoPushToken m;
     isExpoGo := isExpoGo m;
     steps := S (steps m);
     actions := actions m ++ [a] |}.

(** The actions a run added. *)
Definition performed (m m' : Machine) : list Action :=
  skipn (List.length (actions m)) (actions m').

(** Template-literal rendering of [ownership] and of a boolean. *)
Definition string_of_ownership (o : option string) : string :=
  match o with
  | Some s => s
  | None => "null"
  end.

Definition string_of_bool (b : bool) : string :=
  if b then "true" else "false".

(** [ownership === 'expo']. *)
Definition is_expo (o : option string) : bool :=
  match o with
  | Some s => String.eqb s "expo"
  | None => false
  end.

(** The value [getEnvironmentInfo] returns. *)
Record EnvironmentInfo : Type := mkEnvironmentInfo {
  info_isExpoGo : bool;
  info_pushNotificationsAvailable : bool
}.

Section DeviceService.

Variable platform : Platform.

Local Open Scope device_scope.

Definition console_log' (text : string) (arg : option ConsoleArg) : D unit :=
  fun m => (Returns tt, act (Log LevelLog text arg) m).

Definition console_error' (text : string) (arg : option ConsoleArg) : D unit :=
  fun m => (Returns tt, act (Log LevelError text arg) m).

Definition Constants_appOwnership : D (option string) :=
  fun m => (appOwnership platform, m).

Definition set_isExpoGo (b : bool) : D unit :=
  fun m => (Returns tt,
            {| expoPushToken := expoPushToken m;
               isExpoGo := b;
               steps := steps m;
               actions := actions m |}).

Definition set_expoPushToken (t : string) : D unit :=
  fun m => (Returns tt,
            {| expoPushToken := Some t;
               isExpoGo := isExpoGo m;
               steps := steps m;
               actions := actions m |}).

Definition this_isExpoGo : D bool := fun m => (Returns (isExpoGo m), m).

Definition this_expoPushToken : D (option string) :=
  fun m => (Returns (expoPushToken m), m).

Definition Notifications_getPermissionsAsync : D NotificationPermissionsStatus :=
  fun m =>
    let r := getPermissionsAsync_answer platform (steps m) in
    (r, act (GetPermissions r) m).

Definition Notifications_requestPermissionsAsync : D NotificationPermissionsStatus :=
  fun m =>
    let r := requestPermissionsAsync_answer platform (steps m) in
    (r, act (RequestPermissions r) m).

Definition Notifications_getExpoPushTokenAsync : D string :=
  fun m =>
    let r := getExpoPushTokenAsync_answer platform (steps m) in
    (r, act (GetExpoPushToken r) m).

Definition Notifications_scheduleCheck (req : CheckRequest) : D string :=
  fun m =>
    let r := scheduleCheck_answer platform (steps m) req in
    (r, act (ScheduleCheck req r) m).

Definition Notifications_cancelAllScheduledNotificationsAsync : D unit :=
  fun m =>
    let r := cancelAll_answer platform (steps m) in
    (r, act (CancelAllScheduled r) m).

Definition checkExpoGoEnvironment : D unit :=
  dtry
    (ownership <~ Constants_appOwnership ;;
     set_isExpoGo (is_expo ownership) ;;;
     b <~ this_isExpoGo ;;
     console_log'
       ("Notification environment: appOwnership=" ++ string_of_ownership ownership
        ++ ", isExpoGo=" ++ string_of_bool b)%string
       None)
    (fun error =>
       console_log'
         "Could not determine app ownership, assuming non-Expo Go for notifications:"
         (Some (ArgError error)) ;;;
       set_isExpoGo false).

Definition requestPermissions : D bool :=
  if negb (isDevice platform) then
    console_log' "Must use physical device for Notifications" None ;;;
    dret false
  else
    dtry
      (existing <~ Notifications_getPermissionsAsync ;;
       let existingStatus := status existing in
       finalStatus <~
         (if negb (PermissionStatus_eqb existingStatus status_granted)
          then requested <~ Notifications_requestPermissionsAsync ;;
               dret (status requested)
          else dret existingStatus) ;;
       if negb (PermissionStatus_eqb finalStatus status_granted) then
         console_log' "Notification permissions not granted" None ;;;
         dret false
       else
         checkExpoGoEnvironment ;;;
         expoGo <~ this_isExpoGo ;;
         if expoGo then
           console_log' "Expo Go detected - push notifications not available" None ;;;
           dret true
         else
           dtry
             (token <~ Notifications_getExpoPushTokenAsync ;;
              set_expoPushToken token ;;;
              stored <~ this_expoPushToken ;;
              console_log' "Push token obtained:"
                (option_map ArgString stored) ;;;
              dret true)
             (fun error =>
                console_log' "Error getting push token (expected in Expo Go):"
                  (Some (ArgError error)) ;;;
                dret true))
      (fun error =>
         console_error' "Error requesting notification permissions:"
           (Some (ArgError error)) ;;;
         dret false).

Definition getPushToken : D (option string) := this_expoPushToken.

Definition isRunningInExpoGo : D bool := this_isExpoGo.

Definition scheduleDailyRenewalCheck : D unit :=
  expoGo <~ this_isExpoGo ;;
  if expoGo then
    console_log' "Daily renewal check not available in Expo Go" None
  else
    dtry
      (_ <~ Notifications_scheduleCheck
              {| check_title := "Daily Membership Check";
                 check_body := "Checking for memberships that need renewal...";
                 check_data_type := "daily_renewal_check";
                 check_trigger := {| hour := 9; minute := 0; repeats := true |} |} ;;
       dret tt)
      (fun error =>
         console_log' "Daily check scheduling failed (expected in Expo Go):"
           (Some (ArgError error))).

Definition cancelAllScheduledNotifications : D unit :=
  dtry
    Notifications_cancelAllScheduledNotificationsAsync
    (fun error =>
       console_log' "Error canceling notifications:" (Some (ArgError error))).

Definition getNotificationSettings : D NotificationPermissionsStatus :=
  dtry
    Notifications_getPermissionsAsync
    (fun error =>
       console_log' "Error getting notification settings:" (Some (ArgError error)) ;;;
       dret {| status := status_undetermined; granted := false; expires := never |}).

Definition getEnvironmentInfo : D EnvironmentInfo :=
  fun m =>
    (Returns {| info_isExpoGo := isExpoGo m;
                info_pushNotificationsAvailable := negb (isExpoGo m) |}, m).

End DeviceService.

(** The permission requests, token requests and schedule requests among
    some actions. *)
Definition prompts (acts : list Action) : list (Completion NotificationPermissionsStatus) :=
  flat_map (fun a => match a with RequestPermissions r => [r] | _ => [] end) acts.

Definition tokenRequests (acts : list Action) : list (Completion string) :=
  flat_map (fun a => match a with GetExpoPushToken r => [r] | _ => [] end) acts.

Definition checkRequests (acts : list Action) : list CheckRequest :=
  flat_map (fun a => match a with ScheduleCheck req _ => [req] | _ => [] end) acts.

(** ** A concrete phone *)
Module Phone.

Definition grantedStatus : NotificationPermissionsStatus :=
  {| status := status_granted; granted := true; expires := never |}.

Definition undeterminedStatus : NotificationPermissionsStatus :=
  {| status := status_undetermined; granted := false; expires := never |}.

(** A development build on a device: permission is granted when asked for,
    and the push service hands out a token. *)
Definition standalone : Platform :=
  {| isDevice := true;
     appOwnership := Returns None;
     getPermissionsAsync_answer := fun _ => Returns undeterminedStatus;
     requestPermissionsAsync_answer := fun _ => Returns grantedStatus;
     getExpoPushTokenAsync_answer := fun _ => Returns "ExponentPushToken[x]";
     scheduleCheck_answer := fun _ _ => Returns "check-1";
     cancelAll_answer := fun _ => Returns tt |}.

(** Expo Go on a device, permission already granted; the notification
    subsystem refuses to schedule. *)
Definition expoGo : Platform :=
  {| isDevice := true;
     appOwnership := Returns (Some "expo");
     getPermissionsAsync_answer := fun _ => Returns grantedStatus;
     requestPermissionsAsync_answer := fun _ => Returns grantedStatus;
     getExpoPushTokenAsync_answer := fun _ => Throws (Err "Error" "no push in Expo Go");
     scheduleCheck_answer := fun _ _ => Throws (Err "Error" "unsupported trigger");
     cancelAll_answer := fun _ => Throws (Err "Error" "unavailable") |}.

(** A simulator. *)
Definition simulator : Platform :=
  {| isDevice := false;
     appOwnership := Returns None;
     getPermissionsAsync_answer := fun _ => Throws (Err "Error" "no permissions");
     requestPermissionsAsync_answer := fun _ => Throws (Err "Error" "no permissions");
     getExpoPushTokenAsync_answer := fun _ => Throws (Err "Error" "no token");
     scheduleCheck_answer := fun _ _ => Throws (Err "Error" "no scheduler");
     cancelAll_answer := fun _ => Throws (Err "Error" "unavailable") |}.

(** A device whose permission service is down and whose push service fails. *)
Definition broken : Platform :=
  {| isDevice := true;
     appOwnership := Returns (Some "standalone");
     getPermissionsAsync_answer := fun k =>
       match k with
       | O => Returns grantedStatus
       | _ => Throws (Err "Error" "permissions unavailable")
       end;
     requestPermissionsAsync_answer := fun _ => Throws (Err "Error" "permissions unavailable");
     getExpoPushTokenAsync_answer := fun _ => Throws (Err "Error" "no token");
     scheduleCheck_answer := fun _ _ => Throws (Err "Error" "no scheduler");
     cancelAll_answer := fun _ => Throws (Err "Error" "unavailable") |}.

End Phone.

(** [Subseq xs ys]: [xs] is [ys] with some elements left out, order kept. *)
Inductive Subseq {A : Type} : list A -> list A -> Prop :=
| Subseq_nil : Subseq [] []
| Subseq_skip (y : A) (xs ys : list A) : Subseq xs ys -> Subseq xs (y :: ys)
| Subseq_take (x : A) (xs ys : list A) : Subseq xs ys -> Subseq (x :: xs) (x :: ys).

(** ** A club with a given member list *)
Module Club.

(** The environment of [Gym], except that listing the members completes as
    [listing] says. *)
Definition env (listing : Completion (list Member.t)) : Env :=
  {| clock := clock Gym.env;
     toISOString := toISOString Gym.env;
     toLocaleDateString := toLocaleDateString Gym.env;
     createNotification_answer := createNotification_answer Gym.env;
     scheduleNotificationAsync_answer := scheduleNotificationAsync_answer Gym.env;
     getAllMembers_answer := fun _ => listing |}.

Definition lapsed : Member.t := Gym.dueIn "L" (3 * MS_PER_DAY) expired.

Definition undated : Member.t :=
  {| Member.id := "U";
     Member.membershipEndDate := None;
     Member.membershipStatus := active;
     Member.membershipFee := 4500 |}.

End Club.

(** ** Arithmetic of the day count *)

Lemma Math_ceil_div_Zdiv (a b : Z) :
  Math_ceil_div a b = - ((- a) / b).
Proof.
  unfold Math_ceil_div, Qceiling. f_equal.
  rewrite Zdiv_Qdiv. apply Qfloor_comp.
  rewrite inject_Z_opp. unfold Qdiv. ring.
Qed.

Lemma Math_ceil_div_bounds (a b : Z) :
  0 < b -> b * (Math_ceil_div a b - 1) < a <= b * Math_ceil_div a b.
Proof.
  intros Hb. rewrite Math_ceil_div_Zdiv.
  pose proof (Z.mul_div_le (- a) b Hb).
  pose proof (Z.mul_succ_div_gt (- a) b Hb).
  lia.
Qed.

Lemma ceiling_unique (a b d d' : Z) :
  0 < b ->
  b * (d - 1) < a <= b * d ->
  b * (d' - 1) < a <= b * d' ->
  d = d'.
Proof. intros Hb H1 H2. nia. Qed.

Lemma MS_PER_DAY_pos : 0 < MS_PER_DAY.
Proof. reflexivity. Qed.

(** ** Runs of the service *)

Lemma produced_app (w w' : World) (evs : list Event) :
  trace w' = trace w ++ evs -> produced w w' = evs.
Proof.
  unfold produced. intros ->.
  rewrite skipn_app, skipn_all, Nat.sub_diag. reflexivity.
Qed.

Lemma produced_nil (w w' : World) :
  trace w' = trace w -> produced w w' = [].
Proof. intros H. apply produced_app. rewrite app_nil_r. exact H. Qed.

Ltac unfold_service :=
  unfold sendMembershipRenewalNotification, checkMember,
    createExpiredMembershipNotification, createUrgentRenewalNotification,
    createRenewalReminderNotification,
    scheduleLocalNotification, calculateDaysUntilExpiry,
    firebaseService_createNotification, firebaseService_getAllMembers,
    Notifications_scheduleNotificationAsync,
    console_log, console_error, newDate, Date_toISOString, Date_getTime,
    try_catch, bind, ret, throw, exec, result, daysLeft, emit, tick in *.

(** Brings the trace of the world after into the shape [trace w ++ evs]. *)
Ltac settle_trace :=
  cbn [trace ticks fst snd];
  repeat rewrite <- app_assoc;
  cbn [app];
  first [ erewrite produced_app by reflexivity
        | erewrite produced_nil by reflexivity
        | idtac ].

Lemma daysLeft_Some (env : Env) (w : World) (m : Member.t) (d : Z) :
  daysLeft env w m = Some d ->
  exists e, Member.membershipEndDate m = Some e
         /\ d = Math_ceil_div (e - clock env (ticks w)) MS_PER_DAY.
Proof.
  unfold_service. destruct (Member.membershipEndDate m) as [e|]; cbn; intros H.
  - exists e. split; [reflexivity|]. now injection H as <-.
  - discriminate.
Qed.

(** Runs [sendMembershipRenewalNotification] symbolically on a member whose
    day count is [d]. *)
Ltac run_send Hd :=
  let e := fresh "e" in
  let He := fresh "He" in
  let Hc := fresh "Hc" in
  destruct (daysLeft_Some _ _ _ _ Hd) as (e & He & Hc);
  unfold_service; rewrite He; cbn [option_map]; rewrite <- Hc;
  cbv zeta;
  cbn [fst snd ticks trace Notification.title Notification.message].

(** Splits [H : In ev evs] over a list of events that is known, dropping the
    members that cannot be [ev]. *)
Ltac pick_event H :=
  cbn [In] in H;
  repeat (destruct H as [H | H]; [try discriminate H |]);
  try contradiction.

Ltac case_days d :=
  destruct (Z.leb_spec d 0);
  [| destruct (Z.leb_spec d 7); [| destruct (Z.leb_spec d 30)]];
  try lia.

Ltac case_answers :=
  repeat (
    cbn [fst snd ticks trace Notification.title Notification.message];
    match goal with
    | |- context [match createNotification_answer ?e ?k ?n with _ => _ end] =>
        let A := fresh "Hwrite" in
        destruct (createNotification_answer e k n) eqn:A
    | |- context [match scheduleNotificationAsync_answer ?e ?k ?n with _ => _ end] =>
        let A := fresh "Halert" in
        destruct (scheduleNotificationAsync_answer e k n) eqn:A
    end).

(** A member whose end date is an Invalid Date gets a NaN day count: every
    comparison fails and nothing happens. *)
Lemma invalid_date_no_effect (env : Env) (m : Member.t) (w : World) :
  daysLeft env w m = None ->
  result (sendMembershipRenewalNotification env m) w = Returns tt
  /\ produced w (exec (sendMembershipRenewalNotification env m) w) = [].
Proof.
  unfold_service.
  destruct (Member.membershipEndDate m) as [e|]; cbn; [discriminate|].
  intros _. split; [reflexivity|]. now apply produced_nil.
Qed.

(** ** The classifier *)

(** C1. Classification by the computed day count: a count of at most 0 hands
    the store one record, the expired one; a count in 1..7 one record, the
    urgent one; a count in 8..30 one record, the reminder; a count above 30
    produces no record, and no other effect either. *)
Theorem renewal_classification (env : Env) (m : Member.t) (w : World) (d : Z) :
  daysLeft env w m = Some d ->
  let evs := produced w (exec (sendMembershipRenewalNotification env m) w) in
  (d <= 0 -> map Notification.title (writes evs) = [expiredTitle]) /\
  (0 < d <= 7 -> map Notification.title (writes evs) = [urgentTitle]) /\
  (7 < d <= 30 -> map Notification.title (writes evs) = [reminderTitle]) /\
  (30 < d -> evs = []).
Proof.
  intros Hd evs. subst evs.
  run_send Hd.
  repeat split; intros Hr; case_days d; case_answers; settle_trace;
    reflexivity.
Qed.

(** The boundary values 0, 7 and 30 are expired, urgent and reminder; one
    millisecond past 30 days is a count of 31 and nothing. *)
Lemma renewal_classification_witness :
  (daysLeft Gym.env Gym.start Gym.today = Some 0
   /\ map Notification.title
        (writes (produced Gym.start
           (exec (sendMembershipRenewalNotification Gym.env Gym.today) Gym.start)))
      = [expiredTitle])
  /\ (daysLeft Gym.env Gym.start Gym.week = Some 7
   /\ map Notification.title
        (writes (produced Gym.start
           (exec (sendMembershipRenewalNotification Gym.env Gym.week) Gym.start)))
      = [urgentTitle])
  /\ (daysLeft Gym.env Gym.start Gym.month = Some 30
   /\ map Notification.title
        (writes (produced Gym.start
           (exec (sendMembershipRenewalNotification Gym.env Gym.month) Gym.start)))
      = [reminderTitle])
  /\ (daysLeft Gym.env Gym.start Gym.monthAndMore = Some 31
   /\ produced Gym.start
        (exec (sendMembershipRenewalNotification Gym.env Gym.monthAndMore) Gym.start)
      = []).
Proof.
  split; [| split; [| split]]; (split; [vm_compute; reflexivity |]).
  - apply (renewal_classification Gym.env Gym.today Gym.start 0);
      [vm_compute; reflexivity | lia].
  - apply (renewal_classification Gym.env Gym.week Gym.start 7);
      [vm_compute; reflexivity | lia].
  - apply (renewal_classification Gym.env Gym.month Gym.start 30);
      [vm_compute; reflexivity | lia].
  - apply (renewal_classification Gym.env Gym.monthAndMore Gym.start 31);
      [vm_compute; reflexivity | lia].
Defined.

(** C2. The day count is the ceiling of (end date - current date) / one day:
    [calculateDaysUntilExpiry] returns the one integer [d] with
    [d - 1 < (end - now) / day <= d], and that is the value the classifier
    works with. *)
Theorem days_until_expiry_is_ceiling (env : Env) (w : World) (endTime : Z) :
  exists d : Z,
    result (calculateDaysUntilExpiry env (Some endTime)) w = Returns (Some d)
    /\ (forall m, Member.membershipEndDate m = Some endTime ->
                  daysLeft env w m = Some d)
    /\ MS_PER_DAY * (d - 1) < endTime - clock env (ticks w) <= MS_PER_DAY * d
    /\ (forall d', MS_PER_DAY * (d' - 1) < endTime - clock env (ticks w)
                     <= MS_PER_DAY * d' -> d' = d).
Proof.
  exists (Math_ceil_div (endTime - clock env (ticks w)) MS_PER_DAY).
  pose proof (Math_ceil_div_bounds (endTime - clock env (ticks w)) MS_PER_DAY
                MS_PER_DAY_pos) as Hb.
  repeat split; try apply Hb.
  - intros m Hm. unfold_service. now rewrite Hm.
  - intros d' Hd'. eapply ceiling_unique; eauto using MS_PER_DAY_pos.
Qed.

(** C3. A member with a day count in 1..7 gets the urgent record, and the
    record carries that very count in [data.daysUntilExpiry]. *)
Theorem urgent_record_carries_days (env : Env) (m : Member.t) (w : World) (d : Z) :
  daysLeft env w m = Some d ->
  0 < d <= 7 ->
  exists n,
    writes (produced w (exec (sendMembershipRenewalNotification env m) w)) = [n]
    /\ Notification.title n = urgentTitle
    /\ Notification.message n = urgentMessage d
    /\ storedDays n = d.
Proof.
  intros Hd Hr.
  run_send Hd.
  case_days d; case_answers; settle_trace; cbn [writes flat_map app];
    eexists; repeat split.
Qed.

Lemma urgent_record_carries_days_witness :
  exists n,
    writes (produced Gym.start
      (exec (sendMembershipRenewalNotification Gym.env Gym.frank) Gym.start)) = [n]
    /\ Notification.title n = urgentTitle
    /\ Notification.message n = urgentMessage 3
    /\ storedDays n = 3.
Proof.
  apply (urgent_record_carries_days Gym.env Gym.frank Gym.start 3);
    [vm_compute; reflexivity | lia].
Defined.

(** C4, as the claim has it, fails on an expired member: five days after
    the end date the computed count is -5 and the record stores 0. *)
Lemma expired_record_does_not_store_count :
  exists n,
    In n (writes (produced Gym.start
      (exec (sendMembershipRenewalNotification Gym.env Gym.bob) Gym.start)))
    /\ daysLeft Gym.env Gym.start Gym.bob = Some (-5)
    /\ storedDays n = 0
    /\ storedDays n <> -5.
Proof.
  eexists. split; [vm_compute; left; reflexivity |].
  split; [vm_compute; reflexivity |].
  split; [reflexivity | discriminate].
Qed.

(** C4, amended. A record for a positive day count (urgent, reminder) stores
    the count computed when it was created; the expired record (a count of
    at most 0) stores the constant 0. *)
Theorem stored_days_snapshot (env : Env) (m : Member.t) (w : World) (d : Z) :
  daysLeft env w m = Some d ->
  forall n,
    In n (writes (produced w (exec (sendMembershipRenewalNotification env m) w))) ->
    (0 < d -> storedDays n = d) /\ (d <= 0 -> storedDays n = 0).
Proof.
  intros Hd.
  run_send Hd.
  case_days d; case_answers; settle_trace; cbn [writes flat_map app In];
    intros n Hn; [destruct Hn as [<- | []] .. | destruct Hn];
    split; intros; try lia; reflexivity.
Qed.

Lemma stored_days_snapshot_witness :
  exists n,
    In n (writes (produced Gym.start
      (exec (sendMembershipRenewalNotification Gym.env Gym.dave) Gym.start)))
    /\ (0 < 20 -> storedDays n = 20) /\ (20 <= 0 -> storedDays n = 0).
Proof.
  eexists. split; [vm_compute; left; reflexivity |].
  apply (stored_days_snapshot Gym.env Gym.dave Gym.start 20);
    [vm_compute; reflexivity | vm_compute; left; reflexivity].
Defined.

(** C10. Every record the classifier hands to the store has type
    [membership_renewal], is unread, is addressed to the classified member
    and names that member in its payload. *)
Theorem renewal_record_fields (env : Env) (m : Member.t) (w : World)
    (n : Notification.t) :
  In n (writes (produced w (exec (sendMembershipRenewalNotification env m) w))) ->
  Notification.type n = "membership_renewal"
  /\ Notification.isRead n = false
  /\ Notification.userId n = Member.id m
  /\ NotificationData.memberId (Notification.data n) = Member.id m.
Proof.
  destruct (daysLeft env w m) as [d|] eqn:Hd.
  - run_send Hd.
    case_days d; case_answers; settle_trace; cbn [writes flat_map app In];
      intros Hn; [destruct Hn as [<- | []] .. | destruct Hn]; repeat split.
  - destruct (invalid_date_no_effect env m w Hd) as [_ ->]. intros [].
Qed.

Lemma renewal_record_fields_witness :
  exists n,
    In n (writes (produced Gym.start
      (exec (sendMembershipRenewalNotification Gym.env Gym.bob) Gym.start)))
    /\ Notification.type n = "membership_renewal"
    /\ Notification.isRead n = false
    /\ Notification.userId n = Member.id Gym.bob
    /\ NotificationData.memberId (Notification.data n) = Member.id Gym.bob.
Proof.
  eexists. split; [vm_compute; left; reflexivity |].
  apply (renewal_record_fields Gym.env Gym.bob Gym.start).
  vm_compute; left; reflexivity.
Defined.

(** ** Alerts *)

(** C5. The alert scheduler is asked exactly for the expired and the urgent
    class.  For a member with a count of at most 7 whose records the store
    accepts, the run starts with the accepted record (the expired one for a
    count of at most 0, the urgent one above) and goes on with one request
    to the scheduler, carrying the record's title and message and a delay of
    two seconds; that is the only record and the only request.  (Without an
    accepted record there is no request.)  For a count in 8..30 one record
    is handed to the store, it is the only record when the store accepts
    it, and the scheduler is never asked; above 30 nothing happens. *)
Theorem alert_only_for_expired_and_urgent (env : Env) (m : Member.t) (w : World)
    (d : Z) :
  daysLeft env w m = Some d ->
  let evs := produced w (exec (sendMembershipRenewalNotification env m) w) in
  (d <= 7 -> accepts env m ->
     exists n docId req r log,
       evs = CreateNotification n (Returns docId)
               :: ScheduleNotification req r :: log
       /\ Notification.userId n = Member.id m
       /\ (d <= 0 -> Notification.title n = expiredTitle)
       /\ (0 < d -> Notification.title n = urgentTitle)
       /\ content_title (content req) = Notification.title n
       /\ content_body (content req) = Notification.message n
       /\ trigger req = Some (Seconds 2)
       /\ records evs = [n]
       /\ alerts evs = [req])
  /\ (d <= 7 -> records evs = [] -> alerts evs = [])
  /\ (7 < d <= 30 ->
        List.length (writes evs) = 1%nat
        /\ alerts evs = []
        /\ (accepts env m -> List.length (records evs) = 1%nat))
  /\ (30 < d -> evs = []).
Proof.
  intros Hd evs. subst evs.
  run_send Hd.
  split; [| split; [| split]].
  - intros Hr Hacc.
    case_days d;
      match goal with
      | |- context [match createNotification_answer ?ev ?k ?n with _ => _ end] =>
          destruct (Hacc k n eq_refl) as [docId ->]
      end;
      case_answers; settle_trace;
      cbn [records alerts flat_map app];
      do 5 eexists; (split; [reflexivity |]);
      repeat split; intros; try lia; reflexivity.
  - intros Hr.
    case_days d; case_answers; settle_trace;
      cbn [records alerts flat_map app];
      intros Hrec; try discriminate Hrec; reflexivity.
  - intros Hr.
    case_days d; split; [| split].
    + case_answers; settle_trace; reflexivity.
    + case_answers; settle_trace; reflexivity.
    + intros Hacc.
      match goal with
      | |- context [match createNotification_answer ?ev ?k ?n with _ => _ end] =>
          destruct (Hacc k n eq_refl) as [docId ->]
      end.
      settle_trace. reflexivity.
  - intros Hr. case_days d. settle_trace. reflexivity.
Qed.

Lemma Gym_accepts (name : string) (ms : Z) (s : MembershipStatus) :
  String.eqb name "A" = false -> accepts Gym.env (Gym.dueIn name ms s).
Proof.
  intros Hname k n Hn. exists "doc".
  cbn [createNotification_answer Gym.env].
  rewrite Hn. cbn [Member.id Gym.dueIn]. now rewrite Hname.
Qed.

(** An expired member (B), an urgent member (F) and a member due in twenty
    days (D), in a club whose store accepts their records. *)
Lemma alert_only_for_expired_and_urgent_witness :
  (exists n docId req r log,
     produced Gym.start
       (exec (sendMembershipRenewalNotification Gym.env Gym.bob) Gym.start)
     = CreateNotification n (Returns docId) :: ScheduleNotification req r :: log
     /\ Notification.title n = expiredTitle
     /\ alerts (produced Gym.start
          (exec (sendMembershipRenewalNotification Gym.env Gym.bob) Gym.start))
        = [req])
  /\ (exists n docId req r log,
     produced Gym.start
       (exec (sendMembershipRenewalNotification Gym.env Gym.frank) Gym.start)
     = CreateNotification n (Returns docId) :: ScheduleNotification req r :: log
     /\ Notification.title n = urgentTitle
     /\ alerts (produced Gym.start
          (exec (sendMembershipRenewalNotification Gym.env Gym.frank) Gym.start))
        = [req])
  /\ (List.length (writes (produced Gym.start
        (exec (sendMembershipRenewalNotification Gym.env Gym.dave) Gym.start)))
      = 1%nat
      /\ alerts (produced Gym.start
           (exec (sendMembershipRenewalNotification Gym.env Gym.dave) Gym.start))
         = []).
Proof.
  split; [| split].
  - destruct (alert_only_for_expired_and_urgent Gym.env Gym.bob Gym.start (-5))
      as (H & _); [vm_compute; reflexivity |].
    destruct (H ltac:(lia) (Gym_accepts "B" _ _ eq_refl))
      as (n & docId & req & r & log & E & _ & T & _ & _ & _ & _ & _ & A).
    exists n, docId, req, r, log.
    split; [exact E | split; [apply T; lia | exact A]].
  - destruct (alert_only_for_expired_and_urgent Gym.env Gym.frank Gym.start 3)
      as (H & _); [vm_compute; reflexivity |].
    destruct (H ltac:(lia) (Gym_accepts "F" _ _ eq_refl))
      as (n & docId & req & r & log & E & _ & _ & T & _ & _ & _ & _ & A).
    exists n, docId, req, r, log.
    split; [exact E | split; [apply T; lia | exact A]].
  - destruct (alert_only_for_expired_and_urgent Gym.env Gym.dave Gym.start 20)
      as (_ & _ & H & _); [vm_compute; reflexivity |].
    destruct (H ltac:(lia)) as (L & A & _).
    split; [exact L | exact A].
Defined.


Lemma createUrgent_swallows_alert_failure (env : Env) (m : Member.t) (d : Z)
    (w : World) (req : NotificationRequest) (e : Error) :
  In (ScheduleNotification req (Throws e))
     (produced w (exec (createUrgentRenewalNotification env m d) w)) ->
  result (createUrgentRenewalNotification env m d) w = Returns tt.
Proof.
  unfold_service.
  destruct (Member.membershipEndDate m) as [t|];
    cbn [ticks trace Notification.title Notification.message];
    case_answers; settle_trace; cbn [fst]; intros H;
    try reflexivity; pick_event H.
Qed.

Lemma createExpired_swallows_alert_failure (env : Env) (m : Member.t)
    (w : World) (req : NotificationRequest) (e : Error) :
  In (ScheduleNotification req (Throws e))
     (produced w (exec (createExpiredMembershipNotification env m) w)) ->
  result (createExpiredMembershipNotification env m) w = Returns tt.
Proof.
  unfold_service.
  destruct (Member.membershipEndDate m) as [t|];
    cbn [ticks trace Notification.title Notification.message];
    case_answers; settle_trace; cbn [fst]; intros H;
    try reflexivity; pick_event H.
Qed.



(** ** Failures of the document store *)

(** The classifier never completes abruptly: whatever is thrown inside is
    caught and logged. *)
Lemma send_returns (env : Env) (m : Member.t) (w : World) :
  result (sendMembershipRenewalNotification env m) w = Returns tt.
Proof.
  unfold_service.
  destruct (Member.membershipEndDate m) as [e|]; cbn [option_map];
    [| reflexivity].
  set (d := Math_ceil_div _ _).
  cbn [ticks trace Notification.title Notification.message].
  case_days d; case_answers; reflexivity.
Qed.

(** C7, as the claim has it, fails: the store refuses the record of member
    A, and the classifier nevertheless completes normally, so its caller is
    not handed the failure. *)
Lemma write_failure_not_raised_to_caller :
  (exists n e,
     In (CreateNotification n (Throws e))
        (produced Gym.start
           (exec (sendMembershipRenewalNotification Gym.env Gym.alice) Gym.start)))
  /\ result (sendMembershipRenewalNotification Gym.env Gym.alice) Gym.start
     = Returns tt
  /\ (forall e,
        result (sendMembershipRenewalNotification Gym.env Gym.alice) Gym.start
        <> Throws e).
Proof.
  split; [| split].
  - do 2 eexists. vm_compute. left. reflexivity.
  - vm_compute. reflexivity.
  - intros e. vm_compute. discriminate.
Qed.

(** C7, amended. A failed write is thrown by the record-creating helper to
    [sendMembershipRenewalNotification], which catches it, logs it on the
    error console and completes normally: the run is the failed write
    followed by that console line (no alert is requested), the caller sees a
    normal completion, and a loop over members goes on with the next one. *)
Theorem write_failure_caught_and_logged (env : Env) (m : Member.t) (w : World)
    (n : Notification.t) (e : Error) :
  In (CreateNotification n (Throws e))
     (produced w (exec (sendMembershipRenewalNotification env m) w)) ->
  result (sendMembershipRenewalNotification env m) w = Returns tt
  /\ produced w (exec (sendMembershipRenewalNotification env m) w)
     = [CreateNotification n (Throws e);
        Console LevelError "Error sending membership renewal notification:"
          (ArgError e)]
  /\ (exists d,
        daysLeft env w m = Some d /\ d <= 30 /\
        let w1 := exec (calculateDaysUntilExpiry env (Member.membershipEndDate m)) w in
        (d <= 0 ->
           result (createExpiredMembershipNotification env m) w1 = Throws e) /\
        (0 < d <= 7 ->
           result (createUrgentRenewalNotification env m d) w1 = Throws e) /\
        (7 < d ->
           result (createRenewalReminderNotification env m d) w1 = Throws e))
  /\ (forall rest,
        Member.membershipStatus m = active ->
        for_of (m :: rest) (checkMember env) w
        = for_of rest (checkMember env)
            (exec (sendMembershipRenewalNotification env m) w)).
Proof.
  intros Hfail.
  split; [apply send_returns |].
  split; [| split].
  3:{ intros rest Hact. cbn [for_of]. unfold bind, checkMember.
      rewrite Hact. cbn [MembershipStatus_eqb].
      pose proof (send_returns env m w) as R. unfold result, exec in *.
      destruct (sendMembershipRenewalNotification env m w) as [c w'].
      cbn [fst snd] in *. now subst c. }
  all: revert Hfail.
  all: destruct (daysLeft env w m) as [d|] eqn:Hd;
    [| destruct (invalid_date_no_effect env m w Hd) as [R ->];
       intros []].
  - run_send Hd.
    case_days d; case_answers; settle_trace; intros Hfail;
      pick_event Hfail.
    all: injection Hfail as <- <-; reflexivity.
  - intros Hfail. exists d. split; [reflexivity |]. revert Hfail.
    run_send Hd.
    case_days d; case_answers; settle_trace; cbn [fst]; intros Hfail;
      pick_event Hfail.
    all: injection Hfail as <- <-.
    all: split; [lia |]; repeat split; intros; try lia; reflexivity.
Qed.

Lemma write_failure_caught_and_logged_witness :
  result (sendMembershipRenewalNotification Gym.env Gym.alice) Gym.start
  = Returns tt
  /\ List.length
       (produced Gym.start
          (exec (sendMembershipRenewalNotification Gym.env Gym.alice) Gym.start))
     = 2%nat.
Proof.
  destruct (write_failure_caught_and_logged Gym.env Gym.alice Gym.start
              {| Notification.userId := "A";
                 Notification.title := urgentTitle;
                 Notification.message := urgentMessage 5;
                 Notification.type := "membership_renewal";
                 Notification.isRead := false;
                 Notification.createdAt := "1767225600001";
                 Notification.data :=
                   {| NotificationData.memberId := "A";
                      NotificationData.membershipEndDate := "1767657600000";
                      NotificationData.daysUntilExpiry := 5;
                      NotificationData.membershipFee := 4500 |} |}
              (Err "FirebaseError" "unavailable"))
    as (R & P & _).
  - vm_compute. left. reflexivity.
  - split; [exact R | rewrite P; reflexivity].
Defined.

(** ** The sweep *)

Lemma isActive_iff (m : Member.t) :
  isActive m = true <-> Member.membershipStatus m = active.
Proof.
  unfold isActive.
  destruct (Member.membershipStatus m); cbn; split; intros H;
    first [reflexivity | discriminate H].
Qed.

Lemma checkMember_active (env : Env) (m : Member.t) (w : World) :
  Member.membershipStatus m = active ->
  checkMember env m w = sendMembershipRenewalNotification env m w.
Proof. intros H. unfold checkMember. now rewrite H. Qed.

Lemma checkMember_inactive (env : Env) (m : Member.t) (w : World) :
  Member.membershipStatus m <> active ->
  checkMember env m w = (Returns tt, w).
Proof.
  intros H. unfold checkMember.
  destruct (Member.membershipStatus m); cbn;
    [congruence | reflexivity | reflexivity].
Qed.

Lemma checkMember_returns (env : Env) (m : Member.t) (w : World) :
  result (checkMember env m) w = Returns tt.
Proof.
  unfold checkMember.
  destruct (MembershipStatus_eqb _ _); [apply send_returns | reflexivity].
Qed.

(** The loop of the sweep never leaves early: it is the left fold of the
    loop body over the members. *)
Lemma for_of_checkMember (env : Env) (ms : list Member.t) (w : World) :
  for_of ms (checkMember env) w
  = (Returns tt, fold_left (fun w' m => exec (checkMember env m) w') ms w).
Proof.
  revert w. induction ms as [| m ms IH]; intros w; [reflexivity |].
  cbn [for_of fold_left]. unfold bind.
  pose proof (checkMember_returns env m w) as R. unfold result, exec in *.
  destruct (checkMember env m w) as [c w']. cbn [fst snd] in *. subst c.
  apply IH.
Qed.

Lemma fold_checkMember_filter (env : Env) (ms : list Member.t) (w : World) :
  fold_left (fun w' m => exec (checkMember env m) w') ms w
  = fold_left (fun w' m => exec (sendMembershipRenewalNotification env m) w')
      (filter isActive ms) w.
Proof.
  revert w. induction ms as [| m ms IH]; intros w; [reflexivity |].
  cbn [fold_left filter]. destruct (isActive m) eqn:A.
  - cbn [fold_left]. unfold exec at 2 4.
    rewrite checkMember_active by now apply isActive_iff. apply IH.
  - unfold exec at 2. rewrite checkMember_inactive.
    + apply IH.
    + intros H. apply isActive_iff in H. congruence.
Qed.

(** A run of the classifier only appends to the trace. *)
Lemma send_extends (env : Env) (m : Member.t) (w : World) :
  exists evs,
    trace (exec (sendMembershipRenewalNotification env m) w) = trace w ++ evs.
Proof.
  unfold_service.
  destruct (Member.membershipEndDate m) as [e|]; cbn [option_map].
  - set (d := Math_ceil_div _ _).
    case_days d; case_answers; cbn [trace snd];
      repeat rewrite <- app_assoc; eexists; try reflexivity.
    symmetry. apply app_nil_r.
  - exists []. cbn. now rewrite app_nil_r.
Qed.

Lemma checkMember_extends (env : Env) (m : Member.t) (w : World) :
  exists evs, trace (exec (checkMember env m) w) = trace w ++ evs.
Proof.
  unfold exec, checkMember.
  destruct (MembershipStatus_eqb _ _); [apply send_extends |].
  exists []. cbn. now rewrite app_nil_r.
Qed.

Lemma fold_checkMember_extends (env : Env) (ms : list Member.t) (w : World) :
  exists evs,
    trace (fold_left (fun w' m => exec (checkMember env m) w') ms w)
    = trace w ++ evs.
Proof.
  revert w. induction ms as [| m ms IH]; intros w.
  - exists []. cbn. now rewrite app_nil_r.
  - cbn [fold_left].
    destruct (IH (exec (checkMember env m) w)) as [evs2 E2].
    destruct (checkMember_extends env m w) as [evs1 E1].
    exists (evs1 ++ evs2). now rewrite E2, E1, app_assoc.
Qed.

Lemma fold_checkMember_app (env : Env) (xs ys : list Member.t) (w : World) :
  fold_left (fun w' m => exec (checkMember env m) w') (xs ++ ys) w
  = fold_left (fun w' m => exec (checkMember env m) w') ys
      (fold_left (fun w' m => exec (checkMember env m) w') xs w).
Proof. apply fold_left_app. Qed.

Lemma records_app (xs ys : list Event) :
  records (xs ++ ys) = records xs ++ records ys.
Proof. unfold records. apply flat_map_app. Qed.

Lemma within_30_days (a : Z) :
  a <= 30 * MS_PER_DAY -> Math_ceil_div a MS_PER_DAY <= 30.
Proof.
  intros H. pose proof (Math_ceil_div_bounds a MS_PER_DAY MS_PER_DAY_pos) as B.
  cbv [MS_PER_DAY] in *. lia.
Qed.

(** A member within 30 days of the end date whose records the store accepts
    gets a record, whatever happened before. *)
Lemma send_creates_record (env : Env) (b : Member.t) (w : World) (e : Z) :
  Member.membershipEndDate b = Some e ->
  e - clock env (ticks w) <= 30 * MS_PER_DAY ->
  accepts env b ->
  exists n docId rest,
    Notification.userId n = Member.id b
    /\ trace (exec (sendMembershipRenewalNotification env b) w)
       = trace w ++ CreateNotification n (Returns docId) :: rest.
Proof.
  intros He Hd Hacc. apply within_30_days in Hd.
  unfold_service. rewrite He. cbn [option_map].
  set (d := Math_ceil_div _ _) in *.
  cbn [fst snd ticks trace Notification.title Notification.message].
  case_days d;
    match goal with
    | |- context [match createNotification_answer ?ev ?k ?n with _ => _ end] =>
        destruct (Hacc k n eq_refl) as [docId ->]
    end;
    case_answers; cbn [trace snd]; repeat rewrite <- app_assoc; cbn [app];
    do 3 eexists; (split; [| reflexivity]); reflexivity.
Qed.

(** A run of the classifier is determined by the member and by the
    environment from the current interaction on; the history plays no
    part. *)
Lemma send_history_free (env : Env) (m : Member.t) (w1 w2 : World) :
  ticks w1 = ticks w2 ->
  result (sendMembershipRenewalNotification env m) w1
  = result (sendMembershipRenewalNotification env m) w2
  /\ produced w1 (exec (sendMembershipRenewalNotification env m) w1)
     = produced w2 (exec (sendMembershipRenewalNotification env m) w2)
  /\ ticks (exec (sendMembershipRenewalNotification env m) w1)
     = ticks (exec (sendMembershipRenewalNotification env m) w2).
Proof.
  destruct w1 as [k tr1], w2 as [k2 tr2]. cbn [ticks]. intros <-.
  unfold_service.
  destruct (Member.membershipEndDate m) as [e|]; cbn [option_map ticks].
  - set (d := Math_ceil_div _ _).
    case_days d; case_answers;
      cbn [trace ticks fst snd]; repeat rewrite <- app_assoc; cbn [app];
      repeat (erewrite produced_app by reflexivity);
      repeat (erewrite produced_nil by reflexivity);
      repeat split.
  - repeat (erewrite produced_nil by reflexivity). repeat split.
Qed.

Lemma checkAll_run (env : Env) (w : World) (members : list Member.t) :
  getAllMembers_answer env (ticks w) = Returns members ->
  checkAllMembersForRenewal env w
  = (Returns tt,
     fold_left (fun w' m => exec (checkMember env m) w') members
       (emit (GetAllMembers (Returns members)) w)).
Proof.
  intros H.
  unfold checkAllMembersForRenewal, try_catch, bind,
    firebaseService_getAllMembers.
  rewrite H, for_of_checkMember. reflexivity.
Qed.

(** When the store cannot list the members the sweep logs that and ends
    normally; no member is known, none is checked. *)
Lemma checkAll_listing_failure (env : Env) (w : World) (e : Error) :
  getAllMembers_answer env (ticks w) = Throws e ->
  result (checkAllMembersForRenewal env) w = Returns tt
  /\ produced w (exec (checkAllMembersForRenewal env) w)
     = [GetAllMembers (Throws e);
        Console LevelError "Error checking members for renewal:" (ArgError e)].
Proof.
  intros H.
  unfold checkAllMembersForRenewal, try_catch, bind,
    firebaseService_getAllMembers, console_error, result, exec, emit.
  rewrite H. cbn [fst snd]. split; [reflexivity |].
  apply produced_app. cbn [trace]. now rewrite <- app_assoc.
Qed.

Lemma In_records (n : Notification.t) (docId : string) (evs : list Event) :
  In (CreateNotification n (Returns docId)) evs -> In n (records evs).
Proof.
  intros H. unfold records. apply in_flat_map.
  eexists; split; [exact H | left; reflexivity].
Qed.

(** C8. Once the store has listed the members, the sweep completes normally
    and has run the loop body on every listed member, once and in order,
    each from the world the previous one left: no completion of a write can
    end the loop.  In particular a member that is active, within 30 days of
    the end date and whose records the store accepts gets a record, whatever
    the store answered for the members before. *)
Theorem sweep_attempts_every_member (env : Env) (w : World)
    (members : list Member.t) :
  getAllMembers_answer env (ticks w) = Returns members ->
  result (checkAllMembersForRenewal env) w = Returns tt
  /\ exec (checkAllMembersForRenewal env) w
     = fold_left (fun w' m => exec (checkMember env m) w') members
         (emit (GetAllMembers (Returns members)) w)
  /\ (forall before b after e,
        members = before ++ b :: after ->
        Member.membershipStatus b = active ->
        Member.membershipEndDate b = Some e ->
        (forall k, e - clock env k <= 30 * MS_PER_DAY) ->
        accepts env b ->
        exists n,
          In n (records (produced w (exec (checkAllMembersForRenewal env) w)))
          /\ Notification.userId n = Member.id b).
Proof.
  intros Hlist.
  pose proof (checkAll_run env w members Hlist) as Hrun.
  unfold result, exec. rewrite Hrun. cbn [fst snd].
  split; [reflexivity | split; [reflexivity |]].
  intros before b after e -> Hact He Hclock Hacc.
  rewrite fold_checkMember_app. cbn [fold_left].
  set (w0 := emit (GetAllMembers (Returns (before ++ b :: after))) w).
  set (wb := fold_left (fun w' m => exec (checkMember env m) w') before w0).
  destruct (fold_checkMember_extends env before w0) as [evs1 E1].
  fold wb in E1.
  destruct (send_creates_record env b wb e He (Hclock _) Hacc)
    as (n & docId & rest & Hu & E2).
  assert (Eb : exec (checkMember env b) wb
               = exec (sendMembershipRenewalNotification env b) wb).
  { unfold exec. now rewrite checkMember_active. }
  destruct (fold_checkMember_extends env after (exec (checkMember env b) wb))
    as [evs3 E3].
  exists n. split; [| exact Hu].
  apply In_records with (docId := docId).
  erewrite produced_app.
  2:{ rewrite E3, Eb, E2, E1. unfold w0. cbn [emit trace].
      repeat rewrite <- app_assoc. reflexivity. }
  apply in_or_app. right. apply in_or_app. right.
  apply in_or_app. left. left. reflexivity.
Qed.

(** The store refuses the record of member A, the first in the list; member
    B, the next one, gets a record all the same. *)
Lemma sweep_attempts_every_member_witness :
  (exists n e,
     In (CreateNotification n (Throws e))
        (produced Gym.start (exec (checkAllMembersForRenewal Gym.env) Gym.start))
     /\ Notification.userId n = Member.id Gym.alice)
  /\ (exists n,
        In n (records
          (produced Gym.start (exec (checkAllMembersForRenewal Gym.env) Gym.start)))
        /\ Notification.userId n = Member.id Gym.bob).
Proof.
  split.
  - do 2 eexists. split; [vm_compute; right; left; reflexivity | reflexivity].
  - destruct (sweep_attempts_every_member Gym.env Gym.start
                [Gym.alice; Gym.bob; Gym.carol; Gym.dave; Gym.erin] eq_refl)
      as (_ & _ & H).
    apply (H [Gym.alice] Gym.bob [Gym.carol; Gym.dave; Gym.erin]
             (Gym.T0 + - 5 * MS_PER_DAY)).
    + reflexivity.
    + reflexivity.
    + reflexivity.
    + intros k. cbn [clock Gym.env]. cbv [MS_PER_DAY Gym.T0]. lia.
    + intros k n Hn. exists "doc". cbn [createNotification_answer Gym.env].
      rewrite Hn. reflexivity.
Defined.

(** C9. The sweep runs the classifier on the members whose status is
    active, in the order listed, and on no other: the loop body is the
    classifier on an active member and does nothing at all on any other.
    A run of the classifier on a member is the same from any two worlds at
    the same interaction count, whatever was done for other members before. *)
Theorem sweep_checks_active_members (env : Env) (w : World)
    (members : list Member.t) :
  getAllMembers_answer env (ticks w) = Returns members ->
  exec (checkAllMembersForRenewal env) w
  = fold_left (fun w' m => exec (sendMembershipRenewalNotification env m) w')
      (filter isActive members)
      (emit (GetAllMembers (Returns members)) w)
  /\ (forall m w', Member.membershipStatus m = active ->
        checkMember env m w' = sendMembershipRenewalNotification env m w')
  /\ (forall m w', Member.membershipStatus m <> active ->
        checkMember env m w' = (Returns tt, w'))
  /\ (forall m w1 w2, ticks w1 = ticks w2 ->
        result (sendMembershipRenewalNotification env m) w1
        = result (sendMembershipRenewalNotification env m) w2
        /\ produced w1 (exec (sendMembershipRenewalNotification env m) w1)
           = produced w2 (exec (sendMembershipRenewalNotification env m) w2)
        /\ ticks (exec (sendMembershipRenewalNotification env m) w1)
           = ticks (exec (sendMembershipRenewalNotification env m) w2)).
Proof.
  intros Hlist.
  split; [| split; [| split]].
  - unfold exec at 1. rewrite (checkAll_run env w members Hlist). cbn [snd].
    apply fold_checkMember_filter.
  - intros m w'. apply checkMember_active.
  - intros m w'. apply checkMember_inactive.
  - intros m w1 w2. apply send_history_free.
Qed.

(** Of the five members listed, the inactive one (C) is passed over: the
    sweep is the classifier on A, B, D and E. *)
Lemma sweep_checks_active_members_witness :
  exec (checkAllMembersForRenewal Gym.env) Gym.start
  = fold_left
      (fun w' m => exec (sendMembershipRenewalNotification Gym.env m) w')
      [Gym.alice; Gym.bob; Gym.dave; Gym.erin]
      (emit (GetAllMembers
               (Returns [Gym.alice; Gym.bob; Gym.carol; Gym.dave; Gym.erin]))
         Gym.start).
Proof.
  apply (sweep_checks_active_members Gym.env Gym.start
           [Gym.alice; Gym.bob; Gym.carol; Gym.dave; Gym.erin] eq_refl).
Defined.

(** * Further properties of the service *)

(** ** The local alert *)

(** [scheduleLocalNotification] asks the scheduler once, with the title, the
    body and the trigger it was given, and completes as the scheduler does:
    it returns the scheduler's identifier, or throws the scheduler's error
    again after logging it. *)
Theorem scheduleLocalNotification_passes_completion (env : Env) (w : World)
    (title body : string) (trigger0 : option Trigger) :
  exists req,
    alerts (produced w (exec (scheduleLocalNotification env title body trigger0) w))
    = [req]
    /\ content_title (content req) = title
    /\ content_body (content req) = body
    /\ trigger req = trigger0
    /\ result (scheduleLocalNotification env title body trigger0) w
       = scheduleNotificationAsync_answer env (ticks w) req
    /\ (forall e,
          scheduleNotificationAsync_answer env (ticks w) req = Throws e ->
          produced w (exec (scheduleLocalNotification env title body trigger0) w)
          = [ScheduleNotification req (Throws e);
             Console LevelError "Error scheduling local notification:"
               (ArgError e)]).
Proof.
  unfold_service. eexists.
  case_answers; settle_trace; cbn [alerts flat_map app];
    do 4 (split; [reflexivity |]); (split; [symmetry; eassumption |]);
    intros e' He'; rewrite Halert in He'.
  - discriminate He'.
  - injection He' as <-. reflexivity.
Qed.

(** ** Thresholds in time *)

Lemma Math_ceil_div_le (a k : Z) :
  Math_ceil_div a MS_PER_DAY <= k <-> a <= k * MS_PER_DAY.
Proof.
  pose proof (Math_ceil_div_bounds a MS_PER_DAY MS_PER_DAY_pos) as B.
  cbv [MS_PER_DAY] in *. lia.
Qed.

Lemma daysLeft_of_end (env : Env) (w : World) (m : Member.t) (e : Z) :
  Member.membershipEndDate m = Some e ->
  daysLeft env w m
  = Some (Math_ceil_div (e - clock env (ticks w)) MS_PER_DAY).
Proof.
  intros He.
  unfold daysLeft, result, calculateDaysUntilExpiry, bind, newDate, ret,
    Date_getTime.
  now rewrite He.
Qed.

(** The classes in terms of the time left when the classifier reads the
    clock: an end date not after that time is expired; up to seven days
    ahead, to the millisecond, is urgent; beyond that and up to thirty days
    ahead is a reminder; anything later leaves no trace. *)
Theorem classification_by_time_left (env : Env) (m : Member.t) (w : World)
    (e : Z) :
  Member.membershipEndDate m = Some e ->
  let left := e - clock env (ticks w) in
  let evs := produced w (exec (sendMembershipRenewalNotification env m) w) in
  (left <= 0 -> map Notification.title (writes evs) = [expiredTitle])
  /\ (0 < left <= 7 * MS_PER_DAY ->
        map Notification.title (writes evs) = [urgentTitle])
  /\ (7 * MS_PER_DAY < left <= 30 * MS_PER_DAY ->
        map Notification.title (writes evs) = [reminderTitle])
  /\ (30 * MS_PER_DAY < left -> evs = []).
Proof.
  intros He left evs. subst evs.
  pose proof (daysLeft_of_end env w m e He) as Hd. fold left in Hd.
  pose proof (Math_ceil_div_le left 0) as L0.
  pose proof (Math_ceil_div_le left 7) as L7.
  pose proof (Math_ceil_div_le left 30) as L30.
  remember (Math_ceil_div left MS_PER_DAY) as d eqn:Ed.
  clearbody left. clear Ed.
  run_send Hd.
  repeat split; intros Hr; case_days d; case_answers; settle_trace;
    reflexivity.
Qed.

Lemma classification_by_time_left_witness :
  map Notification.title
    (writes (produced Gym.start
       (exec (sendMembershipRenewalNotification Gym.env Gym.monthAndMore)
          Gym.start))) = []
  /\ map Notification.title
       (writes (produced Gym.start
          (exec (sendMembershipRenewalNotification Gym.env Gym.week)
             Gym.start))) = [urgentTitle].
Proof.
  split.
  - destruct (classification_by_time_left Gym.env Gym.monthAndMore Gym.start
                (Gym.T0 + (30 * MS_PER_DAY + 1)) eq_refl) as (_ & _ & _ & H).
    rewrite H; [reflexivity | vm_compute; reflexivity].
  - apply (classification_by_time_left Gym.env Gym.week Gym.start
             (Gym.T0 + 7 * MS_PER_DAY) eq_refl).
    vm_compute. split; [reflexivity | discriminate].
Defined.

(** Extending a membership by whole days moves the day count by as many
    days; a later end date never gives a smaller count, a later reading of
    the clock never a larger one. *)
Theorem day_count_shift_and_order (env : Env) (w w' : World) (e e' k : Z) :
  exists d,
    result (calculateDaysUntilExpiry env (Some e)) w = Returns (Some d)
    /\ result (calculateDaysUntilExpiry env (Some (e + k * MS_PER_DAY))) w
       = Returns (Some (d + k))
    /\ (forall d', e <= e' ->
          result (calculateDaysUntilExpiry env (Some e')) w = Returns (Some d') ->
          d <= d')
    /\ (forall d', clock env (ticks w) <= clock env (ticks w') ->
          result (calculateDaysUntilExpiry env (Some e)) w' = Returns (Some d') ->
          d' <= d).
Proof.
  unfold_service. cbn [option_map fst].
  eexists. split; [reflexivity |].
  pose proof MS_PER_DAY_pos as P.
  split; [| split].
  - do 2 f_equal.
    eapply ceiling_unique; [exact P | apply Math_ceil_div_bounds, P |].
    pose proof (Math_ceil_div_bounds (e - clock env (ticks w)) MS_PER_DAY P).
    nia.
  - intros d' Hle H. injection H as <-.
    pose proof (Math_ceil_div_bounds (e - clock env (ticks w)) MS_PER_DAY P).
    pose proof (Math_ceil_div_bounds (e' - clock env (ticks w)) MS_PER_DAY P).
    nia.
  - intros d' Hle H. injection H as <-.
    pose proof (Math_ceil_div_bounds (e - clock env (ticks w)) MS_PER_DAY P).
    pose proof (Math_ceil_div_bounds (e - clock env (ticks w')) MS_PER_DAY P).
    nia.
Qed.

(** ** What one run of the classifier can do *)

(** A member whose end date is an Invalid Date is passed over in silence:
    the classifier completes normally and nothing is written, requested or
    logged. *)
Theorem invalid_end_date_is_skipped (env : Env) (m : Member.t) (w : World) :
  Member.membershipEndDate m = None ->
  result (sendMembershipRenewalNotification env m) w = Returns tt
  /\ produced w (exec (sendMembershipRenewalNotification env m) w) = [].
Proof.
  intros He. apply invalid_date_no_effect.
  unfold daysLeft, result, calculateDaysUntilExpiry, bind, newDate, ret,
    Date_getTime.
  now rewrite He.
Qed.

Lemma invalid_end_date_is_skipped_witness :
  result (sendMembershipRenewalNotification Gym.env Club.undated) Gym.start
  = Returns tt
  /\ produced Gym.start
       (exec (sendMembershipRenewalNotification Gym.env Club.undated) Gym.start)
     = [].
Proof.
  apply (invalid_end_date_is_skipped Gym.env Club.undated Gym.start).
  reflexivity.
Defined.

(** The shape of a run of the classifier: the events added, with at most
    one write, addressed to the member. *)
Lemma send_writes_shape (env : Env) (m : Member.t) (w : World) :
  exists evs,
    trace (exec (sendMembershipRenewalNotification env m) w) = trace w ++ evs
    /\ (writes evs = []
        \/ exists n, writes evs = [n]
                     /\ Notification.userId n = Member.id m).
Proof.
  unfold_service.
  destruct (Member.membershipEndDate m) as [e|]; cbn [option_map].
  - set (d := Math_ceil_div _ _).
    case_days d; case_answers; cbn [trace snd];
      repeat rewrite <- app_assoc; cbn [app];
      try (exists []; split; [symmetry; apply app_nil_r | left; reflexivity]);
      eexists; (split; [reflexivity |]); right; eexists;
      split; reflexivity.
  - exists []. cbn. split; [now rewrite app_nil_r | now left].
Qed.

(** Whatever the store and the scheduler answer, one run of the classifier
    completes normally, hands the store at most one record and asks the
    scheduler at most once, and never asks the scheduler unless the store
    has accepted the record. *)
Theorem classifier_effects_are_bounded (env : Env) (m : Member.t) (w : World) :
  let evs := produced w (exec (sendMembershipRenewalNotification env m) w) in
  result (sendMembershipRenewalNotification env m) w = Returns tt
  /\ (List.length (alerts evs) <= List.length (records evs))%nat
  /\ (List.length (records evs) <= List.length (writes evs))%nat
  /\ (List.length (writes evs) <= 1)%nat.
Proof.
  intros evs. subst evs.
  split; [apply send_returns |].
  unfold_service.
  destruct (Member.membershipEndDate m) as [e|]; cbn [option_map].
  - set (d := Math_ceil_div _ _).
    case_days d; case_answers; settle_trace;
      cbn [alerts records writes flat_map app List.length]; lia.
  - settle_trace. cbn. lia.
Qed.

(** The rest of the payload: a record carries the member's end date in ISO
    form and the member's fee, and is stamped with the reading of the clock
    that follows the one the day count was computed from. *)
Theorem renewal_record_payload (env : Env) (m : Member.t) (w : World)
    (n : Notification.t) :
  In n (writes (produced w (exec (sendMembershipRenewalNotification env m) w))) ->
  exists e,
    Member.membershipEndDate m = Some e
    /\ NotificationData.membershipEndDate (Notification.data n)
       = toISOString env e
    /\ NotificationData.membershipFee (Notification.data n)
       = Member.membershipFee m
    /\ Notification.createdAt n = toISOString env (clock env (S (ticks w))).
Proof.
  destruct (daysLeft env w m) as [d|] eqn:Hd.
  - run_send Hd.
    case_days d; case_answers; settle_trace; cbn [writes flat_map app In];
      intros Hn; [destruct Hn as [<- | []] .. | destruct Hn];
      exists e; repeat split.
  - destruct (invalid_date_no_effect env m w Hd) as [_ ->]. intros [].
Qed.

Lemma renewal_record_payload_witness :
  exists n e,
    In n (writes (produced Gym.start
      (exec (sendMembershipRenewalNotification Gym.env Gym.dave) Gym.start)))
    /\ Member.membershipEndDate Gym.dave = Some e
    /\ NotificationData.membershipFee (Notification.data n) = 4500
    /\ Notification.createdAt n = "1767225600001".
Proof.
  eexists.
  destruct (renewal_record_payload Gym.env Gym.dave Gym.start _
              ltac:(vm_compute; left; reflexivity))
    as (e & He & _ & Hfee & Hat).
  exists e. split; [vm_compute; left; reflexivity |].
  split; [exact He |]. split; [exact Hfee | exact Hat].
Defined.

(** ** What a sweep can do *)

(** The sweep never completes abruptly, whether or not the members can be
    listed and whatever the store and the scheduler answer afterwards. *)
Theorem sweep_never_throws (env : Env) (w : World) :
  result (checkAllMembersForRenewal env) w = Returns tt.
Proof.
  destruct (getAllMembers_answer env (ticks w)) as [members | e] eqn:H.
  - unfold result. now rewrite (checkAll_run env w members H).
  - apply (checkAll_listing_failure env w e H).
Qed.

(** When the members cannot be listed, the sweep logs the error and that is
    all: no record is handed to the store and the scheduler is not asked. *)
Theorem sweep_without_listing_writes_nothing (env : Env) (w : World) (e : Error) :
  getAllMembers_answer env (ticks w) = Throws e ->
  produced w (exec (checkAllMembersForRenewal env) w)
  = [GetAllMembers (Throws e);
     Console LevelError "Error checking members for renewal:" (ArgError e)]
  /\ writes (produced w (exec (checkAllMembersForRenewal env) w)) = []
  /\ alerts (produced w (exec (checkAllMembersForRenewal env) w)) = [].
Proof.
  intros H. destruct (checkAll_listing_failure env w e H) as [_ ->].
  repeat split.
Qed.

Lemma sweep_without_listing_writes_nothing_witness :
  writes (produced Gym.start
    (exec (checkAllMembersForRenewal
             (Club.env (Throws (Err "FirebaseError" "permission-denied"))))
       Gym.start)) = [].
Proof.
  apply (sweep_without_listing_writes_nothing
           (Club.env (Throws (Err "FirebaseError" "permission-denied")))
           Gym.start (Err "FirebaseError" "permission-denied") eq_refl).
Defined.

Lemma writes_app (xs ys : list Event) :
  writes (xs ++ ys) = writes xs ++ writes ys.
Proof. unfold writes. apply flat_map_app. Qed.

Lemma Subseq_refl_nil {A : Type} (ys : list A) : Subseq [] ys.
Proof. induction ys; constructor; assumption. Qed.

Lemma Subseq_length {A : Type} (xs ys : list A) :
  Subseq xs ys -> (List.length xs <= List.length ys)%nat.
Proof. induction 1; cbn; lia. Qed.

(** The writes of a run of the classifier over a list of members. *)
Lemma fold_send_writes (env : Env) (ms : list Member.t) (w : World) :
  exists evs,
    trace (fold_left
             (fun w' m => exec (sendMembershipRenewalNotification env m) w')
             ms w)
    = trace w ++ evs
    /\ Subseq (map Notification.userId (writes evs)) (map Member.id ms).
Proof.
  revert w. induction ms as [| m ms IH]; intros w.
  - exists []. cbn. split; [now rewrite app_nil_r | constructor].
  - cbn [fold_left map].
    destruct (send_writes_shape env m w) as (evs1 & E1 & S1).
    destruct (IH (exec (sendMembershipRenewalNotification env m) w))
      as (evs2 & E2 & S2).
    exists (evs1 ++ evs2). split.
    + now rewrite E2, E1, app_assoc.
    + rewrite writes_app, map_app.
      destruct S1 as [-> | (n & -> & Hn)]; cbn [map app].
      * now constructor.
      * rewrite Hn. now constructor.
Qed.

(** The records a sweep hands to the store are addressed to active members
    of the list, one each at most and in the order of the list; so there
    are never more of them than active members. *)
Theorem sweep_writes_follow_active_members (env : Env) (w : World)
    (members : list Member.t) :
  getAllMembers_answer env (ticks w) = Returns members ->
  let evs := produced w (exec (checkAllMembersForRenewal env) w) in
  Subseq (map Notification.userId (writes evs))
         (map Member.id (filter isActive members))
  /\ (List.length (writes evs) <= List.length (filter isActive members))%nat.
Proof.
  intros Hlist evs.
  assert (S : Subseq (map Notification.userId (writes evs))
                     (map Member.id (filter isActive members))).
  { subst evs. unfold exec. rewrite (checkAll_run env w members Hlist).
    cbn [snd]. rewrite fold_checkMember_filter.
    destruct (fold_send_writes env (filter isActive members)
                (emit (GetAllMembers (Returns members)) w))
      as (evs' & E & S).
    erewrite produced_app.
    2:{ rewrite E. cbn [emit trace]. rewrite <- app_assoc. reflexivity. }
    cbn [app writes flat_map]. exact S. }
  split; [exact S |].
  apply Subseq_length in S. now rewrite !length_map in S.
Qed.

Lemma sweep_writes_follow_active_members_witness :
  Subseq
    (map Notification.userId
       (writes (produced Gym.start
          (exec (checkAllMembersForRenewal Gym.env) Gym.start))))
    ["A"; "B"; "D"; "E"].
Proof.
  apply (sweep_writes_follow_active_members Gym.env Gym.start
           [Gym.alice; Gym.bob; Gym.carol; Gym.dave; Gym.erin] eq_refl).
Defined.

(** A sweep over a list without an active member (the empty list among
    them) lists the members and does nothing else. *)
Theorem sweep_without_active_members (env : Env) (w : World)
    (members : list Member.t) :
  getAllMembers_answer env (ticks w) = Returns members ->
  (forall m, In m members -> Member.membershipStatus m <> active) ->
  produced w (exec (checkAllMembersForRenewal env) w)
  = [GetAllMembers (Returns members)].
Proof.
  intros Hlist Hnone.
  unfold exec. rewrite (checkAll_run env w members Hlist). cbn [snd].
  rewrite fold_checkMember_filter.
  assert (F : filter isActive members = []).
  { clear Hlist. induction members as [| m ms IH]; [reflexivity |].
    cbn [filter]. destruct (isActive m) eqn:A.
    - apply isActive_iff in A. exfalso.
      apply (Hnone m); [now left | exact A].
    - apply IH. intros x Hx. apply Hnone. now right. }
  rewrite F. cbn [fold_left]. now apply produced_app.
Qed.

Lemma sweep_without_active_members_witness :
  produced Gym.start
    (exec (checkAllMembersForRenewal
             (Club.env (Returns [Gym.carol; Club.lapsed]))) Gym.start)
  = [GetAllMembers (Returns [Gym.carol; Club.lapsed])].
Proof.
  apply (sweep_without_active_members
           (Club.env (Returns [Gym.carol; Club.lapsed])) Gym.start
           [Gym.carol; Club.lapsed] eq_refl).
  intros m [<- | [<- | []]]; discriminate.
Defined.

(** * The device side of the service *)

Lemma performed_app (m m' : Machine) (acts : list Action) :
  actions m' = actions m ++ acts -> performed m m' = acts.
Proof.
  unfold performed. intros ->.
  rewrite skipn_app, skipn_all, Nat.sub_diag. reflexivity.
Qed.

Lemma performed_nil (m m' : Machine) :
  actions m' = actions m -> performed m m' = [].
Proof. intros H. apply performed_app. rewrite app_nil_r. exact H. Qed.

Ltac unfold_device :=
  unfold requestPermissions, checkExpoGoEnvironment,
    scheduleDailyRenewalCheck, cancelAllScheduledNotifications,
    getNotificationSettings, getEnvironmentInfo, getPushToken,
    isRunningInExpoGo,
    Notifications_getPermissionsAsync, Notifications_requestPermissionsAsync,
    Notifications_getExpoPushTokenAsync, Notifications_scheduleCheck,
    Notifications_cancelAllScheduledNotificationsAsync,
    Constants_appOwnership, set_isExpoGo, set_expoPushToken,
    this_isExpoGo, this_expoPushToken, console_log', console_error',
    dtry, dbind, dret, dthrow, outcome, after, act in *.

Ltac device_norm :=
  cbn [fst snd steps actions isExpoGo expoPushToken status negb
       PermissionStatus_eqb option_map] in *.

(** Follows the run through every answer of the platform. *)
Ltac case_platform :=
  repeat (
    device_norm;
    match goal with
    | |- context [negb (isDevice ?p)] => destruct (isDevice p) eqn:?
    | |- context [match getPermissionsAsync_answer ?p ?k with _ => _ end] =>
        destruct (getPermissionsAsync_answer p k) eqn:?
    | |- context [match requestPermissionsAsync_answer ?p ?k with _ => _ end] =>
        destruct (requestPermissionsAsync_answer p k) eqn:?
    | |- context [match getExpoPushTokenAsync_answer ?p ?k with _ => _ end] =>
        destruct (getExpoPushTokenAsync_answer p k) eqn:?
    | |- context [match scheduleCheck_answer ?p ?k ?r with _ => _ end] =>
        destruct (scheduleCheck_answer p k r) eqn:?
    | |- context [match cancelAll_answer ?p ?k with _ => _ end] =>
        destruct (cancelAll_answer p k) eqn:?
    | |- context [match appOwnership ?p with _ => _ end] =>
        destruct (appOwnership p) eqn:?
    | |- context [PermissionStatus_eqb (status ?x) _] =>
        destruct (status x) eqn:?
    | |- context [if is_expo ?o then _ else _] => destruct (is_expo o) eqn:?
    | |- context [if isExpoGo ?m then _ else _] => destruct (isExpoGo m) eqn:?
    end);
  device_norm.

Ltac settle_actions :=
  device_norm;
  repeat rewrite <- app_assoc;
  cbn [app];
  repeat first [ erewrite performed_app by reflexivity
               | erewrite performed_nil by reflexivity ].

(** ** Permissions *)

(** [requestPermissions] never completes abruptly, whatever the platform
    answers and whatever state the service is in. *)
Theorem requestPermissions_never_throws (platform : Platform) (m : Machine) :
  exists b, outcome (requestPermissions platform) m = Returns b.
Proof.
  unfold_device. case_platform; eexists; reflexivity.
Qed.

(** [requestPermissions] answers [true] exactly on a physical device on
    which the permission is granted, be it already or after asking the
    user.  Neither the ownership of the app nor a failure to get a push
    token changes the answer. *)
Theorem requestPermissions_true_iff_granted (platform : Platform) (m : Machine) :
  outcome (requestPermissions platform) m = Returns true <->
  isDevice platform = true
  /\ exists p,
       getPermissionsAsync_answer platform (steps m) = Returns p
       /\ (status p = status_granted
           \/ exists q,
                requestPermissionsAsync_answer platform (S (steps m)) = Returns q
                /\ status q = status_granted).
Proof.
  unfold_device. case_platform; split.
  all: try (intros H;
            first [ discriminate H
                  | split; [reflexivity |]; eexists; split; [reflexivity |];
                    first [ left; assumption
                          | right; eexists; split; [reflexivity | assumption] ] ]).
  all: intros (Hd & p & Hp & Hs); try reflexivity; exfalso;
    try discriminate Hd; try discriminate Hp; injection Hp as <-;
    destruct Hs as [Hs | (q & Hq & Hs)]; try congruence;
    try discriminate Hq; injection Hq as <-; congruence.
Qed.

(** Off a physical device nothing is asked of the platform: the answer is
    [false], one line is logged, and the fields of the service stay as they
    were. *)
Theorem requestPermissions_off_device (platform : Platform) (m : Machine) :
  isDevice platform = false ->
  outcome (requestPermissions platform) m = Returns false
  /\ performed m (after (requestPermissions platform) m)
     = [Log LevelLog "Must use physical device for Notifications" None]
  /\ outcome getPushToken (after (requestPermissions platform) m)
     = Returns (expoPushToken m)
  /\ outcome isRunningInExpoGo (after (requestPermissions platform) m)
     = Returns (isExpoGo m).
Proof.
  intros H. unfold_device. rewrite H. cbn [negb fst snd].
  settle_actions. repeat split.
Qed.

Lemma requestPermissions_off_device_witness :
  outcome (requestPermissions Phone.simulator) fresh = Returns false
  /\ performed fresh (after (requestPermissions Phone.simulator) fresh)
     = [Log LevelLog "Must use physical device for Notifications" None].
Proof.
  destruct (requestPermissions_off_device Phone.simulator fresh eq_refl)
    as (R & P & _).
  split; [exact R | exact P].
Defined.

(** The user is asked for the permission only when it is not granted yet,
    and then once. *)
Theorem requestPermissions_prompts_once (platform : Platform) (m : Machine)
    (p : NotificationPermissionsStatus) :
  isDevice platform = true ->
  getPermissionsAsync_answer platform (steps m) = Returns p ->
  (status p = status_granted ->
     prompts (performed m (after (requestPermissions platform) m)) = [])
  /\ (status p <> status_granted ->
     prompts (performed m (after (requestPermissions platform) m))
     = [requestPermissionsAsync_answer platform (S (steps m))]).
Proof.
  intros Hd Hp. unfold_device.
  case_platform; settle_actions; cbn [prompts flat_map app];
    split; intros Hs; try congruence; reflexivity.
Qed.

Lemma requestPermissions_prompts_once_witness :
  prompts (performed fresh (after (requestPermissions Phone.expoGo) fresh)) = []
  /\ prompts (performed fresh (after (requestPermissions Phone.standalone) fresh))
     = [Returns Phone.grantedStatus].
Proof.
  split.
  - apply (requestPermissions_prompts_once Phone.expoGo fresh
             Phone.grantedStatus eq_refl eq_refl).
    reflexivity.
  - apply (requestPermissions_prompts_once Phone.standalone fresh
             Phone.undeterminedStatus eq_refl eq_refl).
    discriminate.
Defined.

(** The push token.  A token is asked for at most once per call.  When none
    is asked for, or the request fails, the stored token is the one from
    before and a failure does not turn the answer to [false]; when the
    platform hands out a token, that token is stored. *)
Theorem requestPermissions_token (platform : Platform) (m : Machine) :
  let m' := after (requestPermissions platform) m in
  match tokenRequests (performed m m') with
  | [] => outcome getPushToken m' = Returns (expoPushToken m)
  | [Returns t] =>
      outcome getPushToken m' = Returns (Some t)
      /\ outcome (requestPermissions platform) m = Returns true
      /\ outcome isRunningInExpoGo m' = Returns false
  | [Throws _] =>
      outcome getPushToken m' = Returns (expoPushToken m)
      /\ outcome (requestPermissions platform) m = Returns true
  | _ => False
  end.
Proof.
  unfold_device.
  case_platform; settle_actions; cbn [tokenRequests flat_map app];
    repeat split.
Qed.

(** An answer of [false] leaves the fields of the service untouched. *)
Theorem requestPermissions_false_keeps_fields (platform : Platform) (m : Machine) :
  outcome (requestPermissions platform) m = Returns false ->
  expoPushToken (after (requestPermissions platform) m) = expoPushToken m
  /\ isExpoGo (after (requestPermissions platform) m) = isExpoGo m.
Proof.
  unfold_device.
  case_platform; intros H; try discriminate H; split; reflexivity.
Qed.

Lemma requestPermissions_false_keeps_fields_witness :
  expoPushToken (after (requestPermissions Phone.simulator) fresh) = None
  /\ isExpoGo (after (requestPermissions Phone.simulator) fresh) = false.
Proof.
  apply (requestPermissions_false_keeps_fields Phone.simulator fresh).
  reflexivity.
Defined.

(** After an answer of [true] the service knows its environment: it counts
    as Expo Go exactly when the ownership of the app reads ['expo'], an
    unreadable ownership counting as not Expo Go, and [getEnvironmentInfo]
    reports push notifications as available exactly when it is not. *)
Theorem requestPermissions_detects_environment (platform : Platform)
    (m : Machine) :
  outcome (requestPermissions platform) m = Returns true ->
  let expoGo :=
    match appOwnership platform with
    | Returns ownership => is_expo ownership
    | Throws _ => false
    end in
  outcome getEnvironmentInfo (after (requestPermissions platform) m)
  = Returns {| info_isExpoGo := expoGo;
               info_pushNotificationsAvailable := negb expoGo |}.
Proof.
  unfold_device.
  case_platform; intros H; try discriminate H; cbn zeta;
    repeat match goal with
    | E : is_expo _ = _ |- _ => rewrite E
    end;
    reflexivity.
Qed.

Lemma requestPermissions_detects_environment_witness :
  outcome getEnvironmentInfo
    (after (requestPermissions Phone.expoGo) fresh)
  = Returns {| info_isExpoGo := true;
               info_pushNotificationsAvailable := false |}.
Proof.
  apply (requestPermissions_detects_environment Phone.expoGo fresh).
  reflexivity.
Defined.

(** ** The daily check and the other calls *)

(** [scheduleDailyRenewalCheck] never completes abruptly and leaves the
    fields alone.  In Expo Go it only logs; otherwise it asks the platform
    once, for a repeating check at 9:00. *)
Theorem scheduleDailyRenewalCheck_request (platform : Platform) (m : Machine) :
  let m' := after (scheduleDailyRenewalCheck platform) m in
  outcome (scheduleDailyRenewalCheck platform) m = Returns tt
  /\ expoPushToken m' = expoPushToken m
  /\ isExpoGo m' = isExpoGo m
  /\ (isExpoGo m = true ->
        performed m m'
        = [Log LevelLog "Daily renewal check not available in Expo Go" None])
  /\ (isExpoGo m = false ->
        exists req,
          checkRequests (performed m m') = [req]
          /\ check_trigger req = {| hour := 9; minute := 0; repeats := true |}
          /\ check_data_type req = "daily_renewal_check").
Proof.
  unfold_device. cbv zeta.
  case_platform; settle_actions; cbn [checkRequests flat_map app];
    (split; [reflexivity |]); (split; [reflexivity |]);
    (split; [first [reflexivity | congruence] |]);
    split; intros H; try discriminate H; try congruence;
    try reflexivity; eexists; repeat split.
Qed.

Lemma requestPermissions_sets_flag (platform : Platform) (m : Machine) :
  outcome (requestPermissions platform) m = Returns true ->
  isExpoGo (after (requestPermissions platform) m)
  = match appOwnership platform with
    | Returns ownership => is_expo ownership
    | Throws _ => false
    end.
Proof.
  unfold_device.
  case_platform; intros H; try discriminate H;
    repeat match goal with
    | E : is_expo _ = _ |- _ => rewrite E
    end;
    reflexivity.
Qed.

Lemma scheduleDaily_in_expoGo (platform : Platform) (m : Machine) :
  isExpoGo m = true ->
  checkRequests (performed m (after (scheduleDailyRenewalCheck platform) m)) = [].
Proof.
  intros H. unfold_device. cbn [fst snd]. rewrite H.
  settle_actions. reflexivity.
Qed.

(** The flag that keeps the daily check away from Expo Go is only set by
    [requestPermissions]: once that has answered [true] in Expo Go, the
    daily check asks the platform for nothing; on a service on which it has
    not run, the daily check asks the platform even in Expo Go. *)
Theorem daily_check_depends_on_detection (platform : Platform) (m : Machine) :
  appOwnership platform = Returns (Some "expo") ->
  (outcome (requestPermissions platform) m = Returns true ->
     checkRequests
       (performed (after (requestPermissions platform) m)
          (after (scheduleDailyRenewalCheck platform)
             (after (requestPermissions platform) m))) = [])
  /\ List.length
       (checkRequests
          (performed fresh (after (scheduleDailyRenewalCheck platform) fresh)))
     = 1%nat.
Proof.
  intros Ho. split.
  - intros H. apply scheduleDaily_in_expoGo.
    rewrite (requestPermissions_sets_flag platform m H), Ho. reflexivity.
  - unfold_device. cbn [fresh isExpoGo].
    case_platform; settle_actions; reflexivity.
Qed.

Lemma daily_check_depends_on_detection_witness :
  checkRequests
    (performed (after (requestPermissions Phone.expoGo) fresh)
       (after (scheduleDailyRenewalCheck Phone.expoGo)
          (after (requestPermissions Phone.expoGo) fresh))) = []
  /\ List.length
       (checkRequests
          (performed fresh (after (scheduleDailyRenewalCheck Phone.expoGo) fresh)))
     = 1%nat.
Proof.
  destruct (daily_check_depends_on_detection Phone.expoGo fresh eq_refl)
    as (H & F).
  split; [apply H; reflexivity | exact F].
Defined.

(** [getNotificationSettings] never completes abruptly: it hands on what the
    platform reports and, when the platform fails, logs that and reports an
    undetermined, not granted, never expiring permission. *)
Theorem getNotificationSettings_fallback (platform : Platform) (m : Machine) :
  match getPermissionsAsync_answer platform (steps m) with
  | Returns p =>
      outcome (getNotificationSettings platform) m = Returns p
      /\ performed m (after (getNotificationSettings platform) m)
         = [GetPermissions (Returns p)]
  | Throws e =>
      outcome (getNotificationSettings platform) m
      = Returns {| status := status_undetermined;
                   granted := false;
                   expires := never |}
      /\ performed m (after (getNotificationSettings platform) m)
         = [GetPermissions (Throws e);
            Log LevelLog "Error getting notification settings:"
              (Some (ArgError e))]
  end.
Proof.
  unfold_device.
  destruct (getPermissionsAsync_answer platform (steps m));
    settle_actions; split; reflexivity.
Qed.

(** [cancelAllScheduledNotifications] never completes abruptly: it asks the
    platform once, logs a failure, and leaves the fields alone. *)
Theorem cancelAll_swallows_failure (platform : Platform) (m : Machine) :
  let m' := after (cancelAllScheduledNotifications platform) m in
  outcome (cancelAllScheduledNotifications platform) m = Returns tt
  /\ expoPushToken m' = expoPushToken m
  /\ isExpoGo m' = isExpoGo m
  /\ match cancelAll_answer platform (steps m) with
     | Returns _ => performed m m' = [CancelAllScheduled (Returns tt)]
     | Throws e =>
         performed m m'
         = [CancelAllScheduled (Throws e);
            Log LevelLog "Error canceling notifications:" (Some (ArgError e))]
     end.
Proof.
  unfold_device.
  destruct (cancelAll_answer platform (steps m)) as [[] | e];
    settle_actions; repeat split.
Qed.
